(** * ConvTexture: the OpenCL convolution kernel generator and its controller

    A shallow embedding of
    [tensorflow/lite/delegates/gpu/cl/kernels/conv_texture.cc]:
    the text generator [GenerateConvCode], the two vendor decisions taken by
    [ConvTexture::Compile] and [UseFP16SIMD], the argument binding of
    [ConvTexture::BindArguments] and the dispatch grid of
    [ConvTexture::GetGridSize].

    C++ [int] values are integers of [Z]; the model covers executions in
    which no signed operation overflows (overflow is undefined in C++ and in
    OpenCL C alike).  [std::string] is [string]; [c += e] appends.

    The text the generator writes is also read back: parameter lines as
    (type, name) pairs, and the coordinate declarations as OpenCL C [int]
    declarations that can be run. *)

From Stdlib Require Import ZArith String Ascii List Bool Lia QArith Qround.
From Stdlib Require Import DecimalString DecimalPos DecimalZ.
From stdpp Require Import gmap strings.
Import ListNotations.

Open Scope string_scope.
Open Scope list_scope.
Open Scope Z_scope.

(** ** Vectors of the delegate: [int2], [int3], [int4] *)

Record int2 := Int2 { int2_x : Z; int2_y : Z }.
Record int3 := Int3 { int3_x : Z; int3_y : Z; int3_z : Z }.
Record int4 := Int4 { int4_x : Z; int4_y : Z; int4_z : Z; int4_w : Z }.

(** ** Enumerations named by the source *)

(** [CalculationsPrecision] (precision.h): the three cases of the two
    [switch] statements of the source. *)
Inductive CalculationsPrecision := F32 | F32_F16 | F16.

(** [TensorStorageType] (tensor_type.h).  The source tells [IMAGE_BUFFER]
    and [TEXTURE_ARRAY] apart from every other kind; the remaining
    enumerators stand for those other kinds. *)
Inductive TensorStorageType :=
  UNKNOWN | BUFFER | IMAGE_BUFFER | TEXTURE_2D | TEXTURE_ARRAY | SINGLE_TEXTURE_2D.

(** Element type of a tensor descriptor; this file never inspects it. *)
Inductive DataType := DT_UNKNOWN | FLOAT16 | FLOAT32.

Inductive AccessType := READ | WRITE.

(** Compiler options pushed by [Compile]; the source names one. *)
Inductive CompilerOptions := ADRENO_FULL_SIMD_LINE.

Inductive Status := OkStatus | UnknownError (message : string).

#[global] Instance CalculationsPrecision_eq_dec : EqDecision CalculationsPrecision.
Proof. solve_decision. Defined.

#[global] Instance TensorStorageType_eq_dec : EqDecision TensorStorageType.
Proof. solve_decision. Defined.

#[global] Instance int2_eq_dec : EqDecision int2.
Proof. solve_decision. Defined.

#[global] Instance int4_eq_dec : EqDecision int4.
Proof. solve_decision. Defined.

(** ** Operation definition *)

Record TensorDescriptor := {
  data_type : DataType;
  storage_type : TensorStorageType
}.

(** [OperationDef].  The source reads [src_tensors] and [dst_tensors] at
    index 0 only; the model keeps that element of each vector. *)
Record OperationDef := {
  precision : CalculationsPrecision;
  src_tensors_0 : TensorDescriptor;
  dst_tensors_0 : TensorDescriptor;
  batch_support : bool
}.

(** [TensorCodeGenerator(name, size_name, descriptor)]: the three
    constructor arguments. *)
Record TensorCodeGenerator := {
  tensor_name : string;
  tensor_size_name : string;
  tensor_descriptor : TensorDescriptor
}.

(** [LinkingContext{var_name, x_coord, y_coord, z_coord}]. *)
Record LinkingContext := {
  var_name : string;
  x_coord : string;
  y_coord : string;
  z_coord : string
}.

(** ** Kernel arguments and the compiled kernel *)

(** Device memory handle ([cl_mem]). *)
Definition cl_mem := N.

(** What the [Auto] setters of [CLKernel] receive: a memory object
    ([SetMemoryAuto]) or the bytes of an [int4], [int2] or [int]
    ([SetBytesAuto<T>]). *)
Inductive KernelArg :=
| ArgMem (memory : cl_mem)
| ArgInt4 (v : int4)
| ArgInt2 (v : int2)
| ArgInt (v : Z).


(** Modelled from the spec: [CLKernel] is defined in cl_kernel.h and
    cl_kernel.cc, not in conv_texture.cc.  The source resets the kernel's
    binding counter and then calls its [Auto] setters one after the other;
    the spec speaks of arguments bound "in a strict, positional order" and
    of the kernel's "bound argument set".  The kernel keeps the next
    position and a finite map from positions to bound values.
    [clSetKernelArg] is the driver's verdict on a position and a value (the
    compiled program's signature); it never changes. *)
Record CLKernel := {
  clSetKernelArg : nat -> KernelArg -> bool;
  binding_counter_ : nat;
  bound_args_ : gmap nat KernelArg
}.

(** Modelled from the spec: [CLKernel::ResetBindingCounter()], the next
    position is 0 again. *)
Definition ResetBindingCounter (k : CLKernel) : CLKernel :=
  {| clSetKernelArg := clSetKernelArg k;
     binding_counter_ := 0%nat;
     bound_args_ := bound_args_ k |}.

(** Modelled from the spec: the common body of [CLKernel::SetMemoryAuto]
    and [CLKernel::SetBytesAuto].  The value goes to the driver at the
    counter's position; on success it is recorded there and the counter
    advances, on failure an error is reported and the kernel is left as it
    is. *)
Definition SetArgAuto (a : KernelArg) (k : CLKernel) : Status * CLKernel :=
  if clSetKernelArg k (binding_counter_ k) a
  then (OkStatus,
        {| clSetKernelArg := clSetKernelArg k;
           binding_counter_ := S (binding_counter_ k);
           bound_args_ := <[binding_counter_ k := a]> (bound_args_ k) |})
  else (UnknownError "Failed to set kernel arguments", k).

Definition SetMemoryAuto (memory : cl_mem) : CLKernel -> Status * CLKernel :=
  SetArgAuto (ArgMem memory).

(** [SetBytesAuto] at the three types the source instantiates it with. *)
Definition SetBytesAuto_int4 (v : int4) : CLKernel -> Status * CLKernel :=
  SetArgAuto (ArgInt4 v).

Definition SetBytesAuto_int2 (v : int2) : CLKernel -> Status * CLKernel :=
  SetArgAuto (ArgInt2 v).

Definition SetBytesAuto_int (v : Z) : CLKernel -> Status * CLKernel :=
  SetArgAuto (ArgInt v).

(** [RETURN_IF_ERROR(a); rest]: run [a] on the kernel; stop at the first
    status that is not OK, keeping the kernel as [a] left it. *)
Definition return_if_error (a rest : CLKernel -> Status * CLKernel)
  (k : CLKernel) : Status * CLKernel :=
  match a k with
  | (OkStatus, k') => rest k'
  | (err, k') => (err, k')
  end.

Notation "'RETURN_IF_ERROR' a ;; rest" := (return_if_error a rest)
  (at level 100, a at next level, right associativity).

Definition return_OkStatus (k : CLKernel) : Status * CLKernel := (OkStatus, k).

(** Binding a sequence of values in order, as a loop of [RETURN_IF_ERROR]. *)
Fixpoint SetArgsAuto (l : list KernelArg) : CLKernel -> Status * CLKernel :=
  match l with
  | [] => return_OkStatus
  | a :: l' => RETURN_IF_ERROR SetArgAuto a ;; SetArgsAuto l'
  end.

(** ** Tensors bound to the operation *)

(** A [Tensor] as the source reads it: its five dimension accessors and its
    two memory accessors. *)
Record Tensor := {
  Width : Z;
  Height : Z;
  Channels : Z;
  Depth : Z;
  Batch : Z;
  GetMemoryPtr : cl_mem;
  GetMemoryPtrForWriting : cl_mem
}.

(** ** Text helpers *)

(** [std::to_string(int)] and the integer arguments of
    [absl::Substitute]: decimal digits, a leading minus sign. *)
Definition to_string (n : Z) : string := NilZero.string_of_int (Z.to_int n).

(** The newline the source writes as a backslash escape, and the macro line
    continuation: a backslash and a newline. *)
Definition LF : string := String "010"%char EmptyString.
Definition BACKSLASH_LF : string := String "092"%char LF.

(** The values [i] of [for (int i = 0; i < n; ++i)]. *)
Definition upto (n : Z) : list Z := map Z.of_nat (seq 0 (Z.to_nat n)).

(** A piece of generated text: written out by the generator itself ([Lit])
    or returned by a helper of another file ([Ext]). *)
Inductive Fragment :=
| Lit (s : string)
| Ext (s : string).

Definition fragment_text (f : Fragment) : string :=
  match f with Lit s => s | Ext s => s end.

(** The accumulator [c] after all appends. *)
Definition render (fs : list Fragment) : string :=
  fold_right (fun f acc => fragment_text f +:+ acc) "" fs.



(** ** Declarations of other files

    The helpers the source calls and whose bodies live in other files of the
    delegate (util.h, tensor code generation, the device, linked
    operations, the program cache) are taken as parameters: every theorem
    below holds for all of them. *)
Class Helpers := {
  (** [CLDevice] and its capability queries. *)
  CLDevice : Type;
  IsAdreno : CLDevice -> bool;
  IsAdreno3xx : CLDevice -> bool;
  IsAdreno4xx : CLDevice -> bool;
  (** [TextureAddressMode] and [GetFastestZeroMode(device)]. *)
  TextureAddressMode : Type;
  GetFastestZeroMode : CLDevice -> TextureAddressMode;
  (** [GetCommonDefines(precision)]. *)
  GetCommonDefines : CalculationsPrecision -> string;
  (** The methods of [TensorCodeGenerator] the source calls. *)
  GetDeclaration : TensorCodeGenerator -> AccessType -> string;
  Read : TensorCodeGenerator -> string -> string;
  Read3D : TensorCodeGenerator -> string -> string -> string ->
           TextureAddressMode -> string;
  Write3D : TensorCodeGenerator -> string -> string -> string -> string ->
            string;
  (** Linked elementwise operations: the text they contribute to the
      parameter list and to the epilogue, and the values they bind. *)
  ElementwiseOperation : Type;
  GetArgsDeclaration : list ElementwiseOperation -> string;
  PostProcess : list ElementwiseOperation -> LinkingContext -> string;
  LinkedArguments : list ElementwiseOperation -> list KernelArg;
  (** [OperationDef::GetPrimaryStorageType()]. *)
  GetPrimaryStorageType : OperationDef -> TensorStorageType;
  (** The program cache and [GetOrCreateCLKernel(code, function_name,
      compiler_options, context, device, &kernel)]. *)
  ProgramCache : Type;
  GetOrCreateCLKernel : ProgramCache -> string -> string ->
                        list CompilerOptions -> CLDevice ->
                        Status * CLKernel * ProgramCache
}.

Section ConvTexture.

Context {helpers : Helpers}.

(** ** [NeedStrideCorrection] (source lines 33-35) *)

Definition NeedStrideCorrection (op_def : OperationDef) (stride : int2) : bool :=
  batch_support op_def && negb (int2_x stride =? 1).

(** ** [GenerateConvCode] (source lines 37-273)

    The function is one sequence of appends to [c]; it is cut here into the
    consecutive parts of that sequence, each with its source lines. *)

(** Lines 63-83: one accumulation macro per [z] of the block. *)
Definition ConvMacro (p : CalculationsPrecision) (z : Z) : list Fragment :=
  let zs_z := to_string z in
  let f0 := to_string (z * 4 + 0) in
  let f1 := to_string (z * 4 + 1) in
  let f2 := to_string (z * 4 + 2) in
  let f3 := to_string (z * 4 + 3) in
  match p with
  | F32 | F16 =>
      [ Lit ("#define CONV" +:+ zs_z +:+ "(R, S)    " +:+ BACKSLASH_LF);
        Lit ("R += S.x * f" +:+ f0 +:+ "; " +:+ BACKSLASH_LF);
        Lit ("R += S.y * f" +:+ f1 +:+ "; " +:+ BACKSLASH_LF);
        Lit ("R += S.z * f" +:+ f2 +:+ "; " +:+ BACKSLASH_LF);
        Lit ("R += S.w * f" +:+ f3 +:+ ";   " +:+ LF) ]
  | F32_F16 =>
      [ Lit ("#define CONV" +:+ zs_z +:+ "(R, S) " +:+ BACKSLASH_LF);
        Lit ("R += convert_float4(S.x * f" +:+ f0 +:+ " + S.y * f" +:+ f1 +:+
             " + S.z * f" +:+ f2 +:+ " + S.w * f" +:+ f3 +:+ ");" +:+ LF) ]
  end.

Definition ConvMacros (p : CalculationsPrecision) (block_size : int3)
  : list Fragment :=
  flat_map (ConvMacro p) (upto (int3_z block_size)).

(** Lines 94-104: the parameters declared after the destination tensor.
    The two conditions are those of lines 96 and 100. *)
Definition SizeAndWindowParameters (is1x1 need_stride_correction : bool)
  : list string :=
  [ "    int4 src_size,                   " +:+ LF;
    "    int4 dst_size,                   " +:+ LF ] ++
  (if negb is1x1
   then [ "    int2 kernel_size,              " +:+ LF;
          "    int2 dilation,                 " +:+ LF ]
   else []) ++
  (if need_stride_correction
   then [ "    int BATCH_SIZE,  " +:+ LF ]
   else []) ++
  [ "    int2 stride,                     " +:+ LF;
    "    int2 padding                     " +:+ LF ].

(** Lines 85-105: the entry point and its parameter list. *)
Definition KernelSignature (op_def : OperationDef) (is1x1 : bool)
  (stride : int2) (src_tensor dst_tensor : TensorCodeGenerator)
  (linked_operations : list ElementwiseOperation) : list Fragment :=
  [ Lit ("__kernel void main_function(" +:+ LF);
    Ext (GetDeclaration src_tensor READ); Lit ("," +:+ LF);
    Lit ("    __read_only image2d_t filters0,   " +:+ LF);
    Lit ("    __read_only image2d_t filters1,   " +:+ LF);
    Lit ("    __read_only image2d_t filters2,   " +:+ LF);
    Lit ("    __read_only image2d_t filters3,   " +:+ LF);
    Lit "    __read_only image2d_t biases";
    Ext (GetArgsDeclaration linked_operations);
    Ext (GetDeclaration dst_tensor WRITE); Lit ("," +:+ LF) ] ++
  map Lit (SizeAndWindowParameters is1x1
             (NeedStrideCorrection op_def stride)) ++
  [ Lit (") {" +:+ LF) ].

(** Lines 106-109: the origin of the invocation's tile and the early exit. *)
Definition TileOrigin (block_size : int3) : list Fragment :=
  [ Lit ("  int X = get_global_id(0) * " +:+ to_string (int3_x block_size) +:+
         ";" +:+ LF);
    Lit ("  int Y = get_global_id(1) * " +:+ to_string (int3_y block_size) +:+
         ";" +:+ LF);
    Lit ("  int Z = get_global_id(2) * " +:+ to_string (int3_z block_size) +:+
         ";" +:+ LF);
    Lit ("  if (X >= dst_size.x || Y >= dst_size.y || Z >= dst_size.w) return;"
         +:+ LF) ].

(** Lines 113-122: the source x-coordinate of block column [x]. *)
Definition SourceXCoordinate (need_stride_correction : bool) (x : Z)
  : list Fragment :=
  let xs_x := to_string x in
  if need_stride_correction
  then [ Lit ("  int p" +:+ xs_x +:+ " = (X + " +:+ xs_x +:+
              ") / BATCH_SIZE;" +:+ LF);
         Lit ("  int b" +:+ xs_x +:+ " = (X + " +:+ xs_x +:+
              ") % BATCH_SIZE;" +:+ LF);
         Lit ("  int xc" +:+ xs_x +:+ " = p" +:+ xs_x +:+
              " * BATCH_SIZE * stride.x + b" +:+ xs_x +:+ " + padding.x;"
              +:+ LF) ]
  else [ Lit ("  int xc" +:+ xs_x +:+ " = (X +" +:+ xs_x +:+
              ") * stride.x + padding.x;" +:+ LF) ].

(** Line 126: the source y-coordinate of block row [y]. *)
Definition SourceYCoordinate (y : Z) : list Fragment :=
  let ys_y := to_string y in
  [ Lit ("  int yc" +:+ ys_y +:+ " = (Y +" +:+ ys_y +:+
         ") * stride.y + padding.y;" +:+ LF) ].

(** Lines 123 and 127: the names under which the reduction loop reads the
    source coordinates. *)
Definition s_x (is1x1 : bool) (x : Z) : string :=
  if is1x1 then "xc" +:+ to_string x else "cx" +:+ to_string x.

Definition s_y (is1x1 : bool) (y : Z) : string :=
  if is1x1 then "yc" +:+ to_string y else "cy" +:+ to_string y.

(** Lines 112-128. *)
Definition SourceCoordinates (op_def : OperationDef) (block_size : int3)
  (stride : int2) : list Fragment :=
  flat_map (SourceXCoordinate (NeedStrideCorrection op_def stride))
           (upto (int3_x block_size)) ++
  flat_map SourceYCoordinate (upto (int3_y block_size)).

(** Lines 129-132: the accumulators. *)
Definition Accumulators (block_size : int3) : list Fragment :=
  map (fun i => Lit ("  ACCUM_FLT4 r" +:+ to_string i +:+
                     " = (ACCUM_FLT4)(0.0f, 0.0f, 0.0f, 0.0f);" +:+ LF))
      (upto (int3_x block_size * int3_y block_size * int3_z block_size)).

(** The two [absl::Substitute] lines of an image-buffer tile element, with
    [$0 = y * block_size.x + x], [$1 = x], [$2 = y]; [yv] and [xv] are the
    coordinate name prefixes, "cy"/"cx" at lines 164-171 and "yc"/"xc" at
    lines 188-195. *)
Definition ImageBufferAddress (yv xv : string) (block_size : int3) (x y : Z)
  : list Fragment :=
  let a0 := to_string (y * int3_x block_size + x) in
  let a1 := to_string x in
  let a2 := to_string y in
  [ Lit ("  int addr_" +:+ a0 +:+ " = select(-1, " +:+ yv +:+ a2 +:+
         " * src_size.x + " +:+ xv +:+ a1 +:+ ", (in_x" +:+ a1 +:+
         " && in_y" +:+ a2 +:+ "));" +:+ LF);
    Lit ("  int dz_" +:+ a0 +:+
         " = select(0, src_size.x * src_size.y, (in_x" +:+ a1 +:+
         " && in_y" +:+ a2 +:+ "));" +:+ LF) ].

Definition ImageBufferAddresses (yv xv : string) (block_size : int3)
  : list Fragment :=
  flat_map (fun x =>
    flat_map (fun y => ImageBufferAddress yv xv block_size x y)
             (upto (int3_y block_size)))
    (upto (int3_x block_size)).

(** Lines 134-198: for a general window the two loops over the kernel
    window are opened and the coordinates recomputed inside them; for a 1x1
    window on an image buffer the addresses are computed once. *)
Definition WindowLoops (block_size : int3) (is1x1 is_image_buffer : bool)
  : list Fragment :=
  let xs := upto (int3_x block_size) in
  let ys := upto (int3_y block_size) in
  if negb is1x1 then
    map (fun x => Lit ("  int cx" +:+ to_string x +:+ ";" +:+ LF)) xs ++
    map (fun y => Lit ("  int cy" +:+ to_string y +:+ ";" +:+ LF)) ys ++
    [ Lit ("  int filter_offset = 0;" +:+ LF);
      Lit ("  for (int y = 0; y < kernel_size.y; ++y) {" +:+ LF) ] ++
    map (fun y => Lit ("  cy" +:+ to_string y +:+ " = y * dilation.y + yc" +:+
                       to_string y +:+ ";" +:+ LF)) ys ++
    (if is_image_buffer
     then map (fun y => Lit ("  bool in_y" +:+ to_string y +:+ " = cy" +:+
                             to_string y +:+ " >= 0 && cy" +:+ to_string y +:+
                             " < src_size.y;" +:+ LF)) ys
     else []) ++
    [ Lit ("  for (int x = 0; x < kernel_size.x; ++x) {" +:+ LF) ] ++
    map (fun x => Lit ("  cx" +:+ to_string x +:+ " = x * dilation.x + xc" +:+
                       to_string x +:+ ";" +:+ LF)) xs ++
    (if is_image_buffer
     then map (fun x => Lit ("  bool in_x" +:+ to_string x +:+ " = cx" +:+
                             to_string x +:+ " >= 0 && cx" +:+ to_string x +:+
                             " < src_size.x;" +:+ LF)) xs ++
          ImageBufferAddresses "cy" "cx" block_size
     else [])
  else if is_image_buffer then
    map (fun y => Lit ("  bool in_y" +:+ to_string y +:+ " = yc" +:+
                       to_string y +:+ " >= 0 && yc" +:+ to_string y +:+
                       " < src_size.y;" +:+ LF)) ys ++
    map (fun x => Lit ("  bool in_x" +:+ to_string x +:+ " = xc" +:+
                       to_string x +:+ " >= 0 && xc" +:+ to_string x +:+
                       " < src_size.x;" +:+ LF)) xs ++
    ImageBufferAddresses "yc" "xc" block_size
  else [].

(** Lines 206-214: the four filter reads of block slice [z]; [f_y] is the
    filter row, "s" or "filter_offset" (line 133). *)
Definition FilterReads (f_y : string) (z : Z) : list Fragment :=
  let fc := "(int2)(Z + " +:+ to_string z +:+ ", " +:+ f_y +:+ ")" in
  [ Lit ("    FLT4 f" +:+ to_string (z * 4 + 0) +:+
         " = READ_IMAGE(filters0, smp_none, " +:+ fc +:+ ");" +:+ LF +:+
         "    FLT4 f" +:+ to_string (z * 4 + 1) +:+
         " = READ_IMAGE(filters1, smp_none, " +:+ fc +:+ ");" +:+ LF +:+
         "    FLT4 f" +:+ to_string (z * 4 + 2) +:+
         " = READ_IMAGE(filters2, smp_none, " +:+ fc +:+ ");" +:+ LF +:+
         "    FLT4 f" +:+ to_string (z * 4 + 3) +:+
         " = READ_IMAGE(filters3, smp_none, " +:+ fc +:+ ");" +:+ LF) ].

(** Lines 199-241: the loop over the source slices. *)
Definition ReductionLoop (block_size : int3) (is1x1 is_image_buffer : bool)
  (device : CLDevice) (src_tensor : TensorCodeGenerator) : list Fragment :=
  let bx := int3_x block_size in
  let by' := int3_y block_size in
  let f_y := if is1x1 then "s" else "filter_offset" in
  [ Lit ("  for (int s = 0; s < src_size.w; ++s) {" +:+ LF) ] ++
  (if is_image_buffer
   then flat_map (fun index =>
          let id := to_string index in
          [ Lit ("    FLT4 src" +:+ id +:+ " = ");
            Ext (Read src_tensor ("addr_" +:+ id));
            Lit (";" +:+ LF) ])
          (upto (bx * by'))
   else []) ++
  flat_map (FilterReads f_y) (upto (int3_z block_size)) ++
  (if negb is_image_buffer
   then let mode := GetFastestZeroMode device in
        flat_map (fun x =>
          flat_map (fun y =>
            let id := to_string (y * bx + x) in
            [ Lit ("    FLT4 src" +:+ id +:+ " = ");
              Ext (Read3D src_tensor (s_x is1x1 x) (s_y is1x1 y) "s" mode);
              Lit (";" +:+ LF) ])
            (upto by'))
          (upto bx)
   else []) ++
  flat_map (fun z =>
    map (fun i =>
      Lit ("    CONV" +:+ to_string z +:+ "(r" +:+
           to_string (i + z * bx * by') +:+ ", src" +:+ to_string i +:+ ");"
           +:+ LF))
      (upto (bx * by')))
    (upto (int3_z block_size)) ++
  (if negb is1x1 then [ Lit ("    filter_offset++;" +:+ LF) ] else []) ++
  (if is_image_buffer
   then map (fun index =>
          let id := to_string index in
          Lit ("     addr_" +:+ id +:+ " += dz_" +:+ id +:+ ";" +:+ LF))
          (upto (bx * by'))
   else []) ++
  [ Lit ("  }" +:+ LF) ].

(** Lines 242-245: the two window loops are closed. *)
Definition WindowLoopsEnd (is1x1 : bool) : list Fragment :=
  if negb is1x1 then [ Lit ("  }" +:+ LF); Lit ("  }" +:+ LF) ] else [].

(** Lines 247-248: the names the destination coordinates start from. *)
Definition dst_x (is1x1 adreno4xx_optimization : bool) : string :=
  if is1x1 && adreno4xx_optimization then "xc0" else "X".

Definition dst_y (is1x1 adreno4xx_optimization : bool) : string :=
  if is1x1 && adreno4xx_optimization then "yc0" else "Y".

(** The bounds check of line 259. *)
Definition BoundsCheck : string :=
  "      if (xc < dst_size.x && yc < dst_size.y) {" +:+ LF.

(** Lines 254-265: the store of tile element [(x, y)] of block slice [z]. *)
Definition TileStore (block_size : int3) (dx dy : string)
  (dst_tensor : TensorCodeGenerator)
  (linked_operations : list ElementwiseOperation) (z y x : Z)
  : list Fragment :=
  let id := to_string ((z * int3_y block_size + y) * int3_x block_size + x) in
  let context :=
    {| var_name := "res"; x_coord := "xc"; y_coord := "yc"; z_coord := "Z" |} in
  [ Lit ("    {" +:+ LF);
    Lit ("      int xc = " +:+ dx +:+ " + " +:+ to_string x +:+ ";" +:+ LF);
    Lit ("      int yc = " +:+ dy +:+ " + " +:+ to_string y +:+ ";" +:+ LF);
    Lit BoundsCheck;
    Lit ("        FLT4 res = TO_FLT4(r" +:+ id +:+ ") + bias_val;" +:+ LF);
    Ext (PostProcess linked_operations context);
    Lit "        "; Ext (Write3D dst_tensor "res" "xc" "yc" "Z"); Lit LF;
    Lit ("      }" +:+ LF);
    Lit ("    }" +:+ LF) ].

(** Lines 250-269: the epilogue of block slice [z]. *)
Definition EpilogueSlice (block_size : int3) (dx dy : string)
  (dst_tensor : TensorCodeGenerator)
  (linked_operations : list ElementwiseOperation) (z : Z) : list Fragment :=
  [ Lit ("  if (Z < dst_size.w) {" +:+ LF);
    Lit ("    FLT4 bias_val = READ_IMAGE(biases, smp_none, (int2)(Z, 0));"
         +:+ LF) ] ++
  flat_map (fun y =>
    flat_map (fun x =>
      TileStore block_size dx dy dst_tensor linked_operations z y x)
      (upto (int3_x block_size)))
    (upto (int3_y block_size)) ++
  [ Lit ("  }" +:+ LF);
    Lit ("  Z++;" +:+ LF) ].

(** Lines 249-270. *)
Definition Epilogue (block_size : int3) (dx dy : string)
  (dst_tensor : TensorCodeGenerator)
  (linked_operations : list ElementwiseOperation) : list Fragment :=
  flat_map (EpilogueSlice block_size dx dy dst_tensor linked_operations)
           (upto (int3_z block_size)).

(** The whole sequence of appends of [GenerateConvCode], in source order. *)
Definition GenerateConvCode_fragments (op_def : OperationDef)
  (block_size : int3) (is1x1 adreno4xx_optimization : bool) (stride : int2)
  (device : CLDevice) (linked_operations : list ElementwiseOperation)
  : list Fragment :=
  let src_tensor :=
    {| tensor_name := "src_data"; tensor_size_name := "src_size";
       tensor_descriptor := src_tensors_0 op_def |} in
  let dst_tensor :=
    {| tensor_name := "dst_data"; tensor_size_name := "dst_size";
       tensor_descriptor := dst_tensors_0 op_def |} in
  let is_image_buffer :=
    bool_decide (storage_type (src_tensors_0 op_def) = IMAGE_BUFFER) in
  [ Ext (GetCommonDefines (precision op_def)) ] ++
  ConvMacros (precision op_def) block_size ++
  KernelSignature op_def is1x1 stride src_tensor dst_tensor linked_operations ++
  TileOrigin block_size ++
  SourceCoordinates op_def block_size stride ++
  Accumulators block_size ++
  WindowLoops block_size is1x1 is_image_buffer ++
  ReductionLoop block_size is1x1 is_image_buffer device src_tensor ++
  WindowLoopsEnd is1x1 ++
  Epilogue block_size (dst_x is1x1 adreno4xx_optimization)
           (dst_y is1x1 adreno4xx_optimization) dst_tensor linked_operations ++
  [ Lit ("}" +:+ LF) ].

(** [GenerateConvCode]: the text returned. *)
Definition GenerateConvCode (op_def : OperationDef) (block_size : int3)
  (is1x1 adreno4xx_optimization : bool) (stride : int2) (device : CLDevice)
  (linked_operations : list ElementwiseOperation) : string :=
  render (GenerateConvCode_fragments op_def block_size is1x1
            adreno4xx_optimization stride device linked_operations).

(** ** [UseFP16SIMD] (source lines 275-287) *)

Definition UseFP16SIMD (device : CLDevice) (p : CalculationsPrecision)
  (kernel1x1 : bool) : bool :=
  if negb (IsAdreno device) then false
  else match p with
       | F32 | F32_F16 => false
       | F16 => IsAdreno3xx device && kernel1x1
       end.

(** ** The controller [ConvTexture] *)

(** The attributes the constructor reads ([Convolution2DAttributes]):
    shapes are (h, w) pairs, the weights shape is OHWI. *)
Record HW := { hw_h : Z; hw_w : Z }.
Record OHWI := { ohwi_o : Z; ohwi_h : Z; ohwi_w : Z; ohwi_i : Z }.
Record Padding2D := { prepended : HW; appended : HW }.

Record Convolution2DAttributes := {
  strides : HW;
  dilations : HW;
  padding : Padding2D;
  weights_shape : OHWI
}.

(** The members of [ConvTexture] and of its base [GPUOperation] that the
    source reads or writes.  [src_0] and [dst_0] are [src_[0]] and
    [dst_[0]], the only elements read; the weight and bias storages are
    known through [GetMemoryPtr()]. *)
Record ConvTexture := {
  definition_ : OperationDef;
  src_0 : Tensor;
  dst_0 : Tensor;
  linked_operations_ : list ElementwiseOperation;
  weights_0_ : cl_mem;
  weights_1_ : cl_mem;
  weights_2_ : cl_mem;
  weights_3_ : cl_mem;
  biases_ : cl_mem;
  kernel_size_ : int2;
  stride_ : int2;
  padding_ : int2;
  dilation_ : int2;
  block_size_ : int3;
  kernel_ : CLKernel;
  work_group_size_ : int3
}.

(** The constructor (lines 290-297).  [rest] gives the members its
    initialiser list does not name. *)
Definition ConvTexture_new (definition : OperationDef)
  (attr : Convolution2DAttributes) (rest : ConvTexture) : ConvTexture :=
  {| definition_ := definition;
     src_0 := src_0 rest;
     dst_0 := dst_0 rest;
     linked_operations_ := linked_operations_ rest;
     weights_0_ := weights_0_ rest;
     weights_1_ := weights_1_ rest;
     weights_2_ := weights_2_ rest;
     weights_3_ := weights_3_ rest;
     biases_ := biases_ rest;
     kernel_size_ := Int2 (ohwi_w (weights_shape attr))
                          (ohwi_h (weights_shape attr));
     stride_ := Int2 (hw_w (strides attr)) (hw_h (strides attr));
     padding_ := Int2 (- hw_w (prepended (padding attr)))
                      (- hw_h (prepended (padding attr)));
     dilation_ := Int2 (hw_w (dilations attr)) (hw_h (dilations attr));
     block_size_ := block_size_ rest;
     kernel_ := kernel_ rest;
     work_group_size_ := Int3 4 4 2 |}.

Definition set_kernel_ (op : ConvTexture) (k : CLKernel) : ConvTexture :=
  {| definition_ := definition_ op;
     src_0 := src_0 op;
     dst_0 := dst_0 op;
     linked_operations_ := linked_operations_ op;
     weights_0_ := weights_0_ op;
     weights_1_ := weights_1_ op;
     weights_2_ := weights_2_ op;
     weights_3_ := weights_3_ op;
     biases_ := biases_ op;
     kernel_size_ := kernel_size_ op;
     stride_ := stride_ op;
     padding_ := padding_ op;
     dilation_ := dilation_ op;
     block_size_ := block_size_ op;
     kernel_ := k;
     work_group_size_ := work_group_size_ op |}.

(** *** [ConvTexture::Compile] (lines 333-351) *)

Record CreationContext := {
  device : CLDevice;
  cache : ProgramCache
}.

(** Line 335. *)
Definition Compile_is1x1 (op : ConvTexture) : bool :=
  (int2_x (kernel_size_ op) =? 1) && (int2_y (kernel_size_ op) =? 1).

(** Lines 334 and 336-340. *)
Definition Compile_adreno4xx_optimization (op : ConvTexture)
  (creation_context : CreationContext) : bool :=
  let storage_type := GetPrimaryStorageType (definition_ op) in
  (int2_x (stride_ op) =? 1) && (int2_y (stride_ op) =? 1) &&
  (int2_x (padding_ op) =? 0) && (int2_y (padding_ op) =? 0) &&
  IsAdreno4xx (device creation_context) &&
  bool_decide (storage_type = TEXTURE_ARRAY) &&
  bool_decide (precision (definition_ op) = F16).

(** Lines 341-343, as the sequence of appends and as text. *)
Definition Compile_fragments (op : ConvTexture)
  (creation_context : CreationContext) : list Fragment :=
  GenerateConvCode_fragments (definition_ op) (block_size_ op)
    (Compile_is1x1 op) (Compile_adreno4xx_optimization op creation_context)
    (stride_ op) (device creation_context) (linked_operations_ op).

Definition Compile_code (op : ConvTexture)
  (creation_context : CreationContext) : string :=
  GenerateConvCode (definition_ op) (block_size_ op)
    (Compile_is1x1 op) (Compile_adreno4xx_optimization op creation_context)
    (stride_ op) (device creation_context) (linked_operations_ op).

(** Lines 344-347. *)
Definition Compile_options (op : ConvTexture)
  (creation_context : CreationContext) : list CompilerOptions :=
  if UseFP16SIMD (device creation_context) (precision (definition_ op))
       (Compile_is1x1 op)
  then [] ++ [ADRENO_FULL_SIMD_LINE]
  else [].

(** Lines 348-350: the kernel comes from the cache. *)
Definition Compile (op : ConvTexture) (creation_context : CreationContext)
  : Status * ConvTexture * ProgramCache :=
  let '(status, kernel, cache') :=
    GetOrCreateCLKernel (cache creation_context)
      (Compile_code op creation_context) "main_function"
      (Compile_options op creation_context) (device creation_context) in
  (status, set_kernel_ op kernel, cache').

(** *** [ConvTexture::BindArguments] (lines 353-383) *)

(** Modelled from the spec: [BindArgs(&kernel_, linked_operations_)] is
    declared in another file.  By the spec each fused operation brings "a
    list of extra kernel parameters it needs bound"; they are bound in
    order through the same setters. *)
Definition BindArgs (linked_operations : list ElementwiseOperation)
  : CLKernel -> Status * CLKernel :=
  SetArgsAuto (LinkedArguments linked_operations).

(** Lines 363-368. *)
Definition BindArguments_src_size (op : ConvTexture) : int4 :=
  Int4 (Width (src_0 op) * Batch (src_0 op)) (Height (src_0 op))
       (Channels (src_0 op)) (Depth (src_0 op)).

Definition BindArguments_dst_size (op : ConvTexture) : int4 :=
  Int4 (Width (dst_0 op) * Batch (dst_0 op)) (Height (dst_0 op))
       (Channels (dst_0 op)) (Depth (dst_0 op)).

(** An [if] whose body is a sequence of [RETURN_IF_ERROR]. *)
Definition when (b : bool) (body : CLKernel -> Status * CLKernel)
  : CLKernel -> Status * CLKernel :=
  if b then body else return_OkStatus.

(** Lines 355-382, on the kernel. *)
Definition BindArguments_body (op : ConvTexture)
  : CLKernel -> Status * CLKernel :=
  RETURN_IF_ERROR SetMemoryAuto (GetMemoryPtr (src_0 op)) ;;
  RETURN_IF_ERROR SetMemoryAuto (weights_0_ op) ;;
  RETURN_IF_ERROR SetMemoryAuto (weights_1_ op) ;;
  RETURN_IF_ERROR SetMemoryAuto (weights_2_ op) ;;
  RETURN_IF_ERROR SetMemoryAuto (weights_3_ op) ;;
  RETURN_IF_ERROR SetMemoryAuto (biases_ op) ;;
  RETURN_IF_ERROR BindArgs (linked_operations_ op) ;;
  RETURN_IF_ERROR SetMemoryAuto (GetMemoryPtrForWriting (dst_0 op)) ;;
  let src_size := BindArguments_src_size op in
  let dst_size := BindArguments_dst_size op in
  RETURN_IF_ERROR SetBytesAuto_int4 src_size ;;
  RETURN_IF_ERROR SetBytesAuto_int4 dst_size ;;
  RETURN_IF_ERROR
    when (negb ((int2_x (kernel_size_ op) =? 1) &&
                (int2_y (kernel_size_ op) =? 1)))
      (RETURN_IF_ERROR SetBytesAuto_int2 (kernel_size_ op) ;;
       RETURN_IF_ERROR SetBytesAuto_int2
         (Int2 (int2_x (dilation_ op) * Batch (src_0 op))
               (int2_y (dilation_ op))) ;;
       return_OkStatus) ;;
  RETURN_IF_ERROR
    when (NeedStrideCorrection (definition_ op) (stride_ op))
      (RETURN_IF_ERROR SetBytesAuto_int (Batch (dst_0 op)) ;;
       return_OkStatus) ;;
  RETURN_IF_ERROR SetBytesAuto_int2 (stride_ op) ;;
  RETURN_IF_ERROR SetBytesAuto_int2
    (Int2 (int2_x (padding_ op) * Batch (src_0 op)) (int2_y (padding_ op))) ;;
  return_OkStatus.

(** [BindArguments]: line 354 resets the counter of [kernel_], then the
    body runs on it. *)
Definition BindArguments (op : ConvTexture) : Status * ConvTexture :=
  let '(status, k) := BindArguments_body op (ResetBindingCounter (kernel_ op)) in
  (status, set_kernel_ op k).

(** *** [ConvTexture::GetGridSize] (lines 385-391) *)

(** Modelled from the spec: [IntegralDivideRoundUp] is defined in util.h,
    not in conv_texture.cc; the spec calls it "ceiling-divide".  Written with
    the truncating [/] and [%] of C++ [int]: the quotient, plus one when the
    division leaves a remainder. *)
Definition IntegralDivideRoundUp (n divisor : Z) : Z :=
  let q := Z.quot n divisor in
  if Z.rem n divisor =? 0 then q else q + 1.

Definition GetGridSize (op : ConvTexture) : int3 :=
  let grid_x :=
    IntegralDivideRoundUp (Width (dst_0 op) * Batch (dst_0 op))
                          (int3_x (block_size_ op)) in
  let grid_y :=
    IntegralDivideRoundUp (Height (dst_0 op)) (int3_y (block_size_ op)) in
  let grid_z :=
    IntegralDivideRoundUp (Depth (dst_0 op)) (int3_z (block_size_ op)) in
  Int3 grid_x grid_y grid_z.

End ConvTexture.

(** ** Reading the generated text *)

(** [contains needle s]: [needle] occurs somewhere in [s]. *)
Definition contains (needle s : string) : bool :=
  match index 0 needle s with
  | Some _ => true
  | None => false
  end.

(** How many times [needle] occurs in the text [s]. *)
Fixpoint occurrences (needle s : string) : nat :=
  match s with
  | EmptyString => 0%nat
  | String _ s' =>
      ((if String.prefix needle s then 1 else 0) + occurrences needle s')%nat
  end.

(** How many pieces written by the generator itself mention [needle]. *)
Definition count_mentions (needle : string) (fs : list Fragment) : nat :=
  length (List.filter
            (fun f => match f with
                      | Lit s => contains needle s
                      | Ext _ => false
                      end) fs).




(** ** The meaning of the two x-addressing forms

    The values the emitted statements give [p], [b] and [xc] for block
    column [x] of the tile at [X]; [/] and [%] on OpenCL C [int] truncate
    toward zero. *)

Definition PixelIndex (X x BATCH_SIZE : Z) : Z := Z.quot (X + x) BATCH_SIZE.

Definition BatchIndex (X x BATCH_SIZE : Z) : Z := Z.rem (X + x) BATCH_SIZE.

(** Lines 115-118. *)
Definition BatchFoldedSourceX (X x BATCH_SIZE stride_x padding_x : Z) : Z :=
  PixelIndex X x BATCH_SIZE * BATCH_SIZE * stride_x +
  BatchIndex X x BATCH_SIZE + padding_x.

(** Lines 120-121. *)
Definition AffineSourceX (X x stride_x padding_x : Z) : Z :=
  (X + x) * stride_x + padding_x.

(** ** A reading of the generated integer declarations

    Enough of OpenCL C to run the lines that compute the source
    coordinates: declarations [int name = expression;] over names, decimal
    literals, parentheses and [+ - * / %] on [int], with [/] and [%]
    truncating toward zero and undefined for a zero divisor. *)

Inductive Token :=
| TWord (w : string)
| TPunct (c : ascii).

(** Letters, digits, the underscore and the member dot make up words. *)
Definition is_word_char (c : ascii) : bool :=
  match c with
  | "0" | "1" | "2" | "3" | "4" | "5" | "6" | "7" | "8" | "9" | "A"
  | "B" | "C" | "D" | "E" | "F" | "G" | "H" | "I" | "J" | "K" | "L"
  | "M" | "N" | "O" | "P" | "Q" | "R" | "S" | "T" | "U" | "V" | "W"
  | "X" | "Y" | "Z" | "a" | "b" | "c" | "d" | "e" | "f" | "g" | "h"
  | "i" | "j" | "k" | "l" | "m" | "n" | "o" | "p" | "q" | "r" | "s"
  | "t" | "u" | "v" | "w" | "x" | "y" | "z" | "_" | "." => true
  | _ => false
  end%char.

Definition is_blank (c : ascii) : bool :=
  (c =? " ")%char || (c =? "010")%char.

Definition flush (current : string) (rest : list Token) : list Token :=
  match current with
  | EmptyString => rest
  | _ => TWord current :: rest
  end.

Fixpoint tokens_from (current : string) (s : string) : list Token :=
  match s with
  | EmptyString => flush current []
  | String c s' =>
      if is_word_char c then tokens_from (current +:+ String c EmptyString) s'
      else if is_blank c then flush current (tokens_from EmptyString s')
      else flush current (TPunct c :: tokens_from EmptyString s')
  end.

Inductive BinOp := Add | Sub | Mul | Div | Mod.

Inductive Expr :=
| Word (w : string)
| Bin (op : BinOp) (a b : Expr).

(** The grammar: a sum of products of factors; a factor is a word or a
    parenthesised sum.  Each function returns what it read and the tokens
    left. *)
Fixpoint parse_factor (fuel : nat) (ts : list Token)
  : option (Expr * list Token) :=
  match fuel with
  | O => None
  | S fuel' =>
      match ts with
      | TWord w :: ts' => Some (Word w, ts')
      | TPunct "("%char :: ts' =>
          match parse_sum fuel' ts' with
          | Some (e, TPunct ")"%char :: ts'') => Some (e, ts'')
          | _ => None
          end
      | _ => None
      end
  end
with parse_product_rest (fuel : nat) (l : Expr) (ts : list Token)
  : option (Expr * list Token) :=
  match fuel with
  | O => None
  | S fuel' =>
      let more op ts' :=
        match parse_factor fuel' ts' with
        | Some (r, ts'') =>
            parse_product_rest fuel' (Bin op l r) ts''
        | None => None
        end in
      match ts with
      | TPunct "*"%char :: ts' => more Mul ts'
      | TPunct "/"%char :: ts' => more Div ts'
      | TPunct "%"%char :: ts' => more Mod ts'
      | _ => Some (l, ts)
      end
  end
with parse_sum_rest (fuel : nat) (l : Expr) (ts : list Token)
  : option (Expr * list Token) :=
  match fuel with
  | O => None
  | S fuel' =>
      let more op ts' :=
        match parse_factor fuel' ts' with
        | Some (f, ts'') =>
            match parse_product_rest fuel' f ts'' with
            | Some (r, ts''') =>
                parse_sum_rest fuel' (Bin op l r) ts'''
            | None => None
            end
        | None => None
        end in
      match ts with
      | TPunct "+"%char :: ts' => more Add ts'
      | TPunct "-"%char :: ts' => more Sub ts'
      | _ => Some (l, ts)
      end
  end
with parse_sum (fuel : nat) (ts : list Token)
  : option (Expr * list Token) :=
  match fuel with
  | O => None
  | S fuel' =>
      match parse_factor fuel' ts with
      | Some (f, ts') =>
          match parse_product_rest fuel' f ts' with
          | Some (l, ts'') => parse_sum_rest fuel' l ts''
          | None => None
          end
      | None => None
      end
  end.

(** [int name = expression;] repeated to the end of the text. *)
Fixpoint parse_declarations (fuel : nat) (ts : list Token)
  : option (list (string * Expr)) :=
  match fuel with
  | O => None
  | S fuel' =>
      match ts with
      | [] => Some []
      | TWord "int" :: TWord name :: TPunct "="%char :: ts' =>
          match parse_sum (4 * length ts') ts' with
          | Some (e, TPunct ";"%char :: ts'') =>
              match parse_declarations fuel' ts'' with
              | Some ds => Some ((name, e) :: ds)
              | None => None
              end
          | _ => None
          end
      | _ => None
      end
  end.

(** A word is a decimal literal or the name of a variable. *)
Definition word_value (env : gmap string Z) (w : string) : option Z :=
  match NilZero.int_of_string w with
  | Some d => Some (Z.of_int d)
  | None => env !! w
  end.

Definition apply_op (op : BinOp) (u v : Z) : option Z :=
  match op with
  | Add => Some (u + v)
  | Sub => Some (u - v)
  | Mul => Some (u * v)
  | Div => if v =? 0 then None else Some (Z.quot u v)
  | Mod => if v =? 0 then None else Some (Z.rem u v)
  end.

Fixpoint eval (env : gmap string Z) (e : Expr) : option Z :=
  match e with
  | Word w => word_value env w
  | Bin op a b =>
      match eval env a, eval env b with
      | Some u, Some v => apply_op op u v
      | _, _ => None
      end
  end.

Fixpoint declare (ds : list (string * Expr)) (env : gmap string Z)
  : option (gmap string Z) :=
  match ds with
  | [] => Some env
  | (name, e) :: ds' =>
      match eval env e with
      | Some v => declare ds' (<[name := v]> env)
      | None => None
      end
  end.

(** Running generated declarations from the values [env] gives the
    variables in scope. *)
Definition run (code : string) (env : gmap string Z)
  : option (gmap string Z) :=
  let ts := tokens_from EmptyString code in
  match parse_declarations (S (length ts)) ts with
  | Some ds => declare ds env
  | None => None
  end.

(** Every character of [s] satisfies [p]. *)
Fixpoint all_chars (p : ascii -> bool) (s : string) : bool :=
  match s with
  | EmptyString => true
  | String c s' => p c && all_chars p s'
  end.

Definition is_digit (c : ascii) : bool :=
  match c with
  | "0" | "1" | "2" | "3" | "4" | "5" | "6" | "7" | "8" | "9" => true
  | _ => false
  end%char.

(** ** The grid as the spec words it *)

(** The ceiling of the rational [n / d]. *)
Definition ceiling_divide (n d : Z) : Z :=
  Qceiling (inject_Z n / inject_Z d).

(** Every element [e] of an axis of length [extent] lies in the tile of
    exactly one of the [grid] invocations along that axis; invocation [g]
    owns [g * block .. (g + 1) * block - 1]. *)
Definition covered_once (grid block extent : Z) : Prop :=
  forall e, 0 <= e < extent ->
    exists g, (0 <= g < grid /\ g * block <= e < (g + 1) * block) /\
      forall g', 0 <= g' < grid /\ g' * block <= e < (g' + 1) * block ->
                 g' = g.

(** ** A concrete set of helpers

    Small stand-ins for the helpers of the other files, used to run the
    model on concrete inputs. *)
Module Sample.

Inductive Device := Adreno3xx | Adreno4xx | Adreno5xx | Mali.

Inductive AddressMode := DONT_CARE | ZERO.

(** A linked operation that adds one [int] parameter to the result. *)
Record Linked := { linked_name : string; linked_value : Z }.

Definition declaration (t : TensorCodeGenerator) (a : AccessType) : string :=
  match a with
  | READ => "    __read_only image2d_t " +:+ tensor_name t
  | WRITE => "    __write_only image2d_t " +:+ tensor_name t
  end.

Definition accepting_kernel : CLKernel :=
  {| clSetKernelArg := fun _ _ => true;
     binding_counter_ := 0%nat;
     bound_args_ := ∅ |}.

Definition helpers : Helpers :=
  {| CLDevice := Device;
     IsAdreno := fun d => match d with Mali => false | _ => true end;
     IsAdreno3xx := fun d => match d with Adreno3xx => true | _ => false end;
     IsAdreno4xx := fun d => match d with Adreno4xx => true | _ => false end;
     TextureAddressMode := AddressMode;
     GetFastestZeroMode :=
       fun d => match d with Adreno3xx => DONT_CARE | _ => ZERO end;
     GetCommonDefines :=
       fun p => match p with
                | F32 => "#define ACCUM_FLT4 float4" +:+ LF +:+
                         "#define FLT4 float4" +:+ LF
                | F16 => "#define ACCUM_FLT4 half4" +:+ LF +:+
                         "#define FLT4 half4" +:+ LF
                | F32_F16 => "#define ACCUM_FLT4 float4" +:+ LF +:+
                             "#define FLT4 half4" +:+ LF
                end;
     GetDeclaration := declaration;
     Read := fun t address =>
       "READ_IMAGE(" +:+ tensor_name t +:+ ", smp_none, " +:+ address +:+ ")";
     Read3D := fun t x y z mode =>
       "READ_IMAGE(" +:+ tensor_name t +:+ ", " +:+
       match mode with DONT_CARE => "smp_none" | ZERO => "smp_zero" end +:+
       ", (int2)((" +:+ x +:+ "), (" +:+ y +:+ ") * " +:+
       tensor_size_name t +:+ ".w + (" +:+ z +:+ ")))";
     Write3D := fun t v x y z =>
       "WRITE_IMAGE(" +:+ tensor_name t +:+ ", (int2)((" +:+ x +:+ "), (" +:+
       y +:+ ") * " +:+ tensor_size_name t +:+ ".w + (" +:+ z +:+ ")), " +:+
       v +:+ ");";
     ElementwiseOperation := Linked;
     GetArgsDeclaration := fun ops =>
       fold_right (fun o acc => "," +:+ LF +:+ "    int " +:+ linked_name o
                                +:+ acc) ("," +:+ LF) ops;
     PostProcess := fun ops context =>
       fold_right (fun o acc => "        " +:+ var_name context +:+ " += " +:+
                                linked_name o +:+ ";" +:+ LF +:+ acc) "" ops;
     LinkedArguments := map (fun o => ArgInt (linked_value o));
     GetPrimaryStorageType := fun d => storage_type (src_tensors_0 d);
     ProgramCache := unit;
     GetOrCreateCLKernel := fun c _ _ _ _ => (OkStatus, accepting_kernel, c) |}.

Definition tensor (w h c d b : Z) (m : cl_mem) : Tensor :=
  {| Width := w; Height := h; Channels := c; Depth := d; Batch := b;
     GetMemoryPtr := m; GetMemoryPtrForWriting := m |}.

Definition definition (p : CalculationsPrecision) (st : TensorStorageType)
  (batch : bool) : OperationDef :=
  {| precision := p;
     src_tensors_0 := {| data_type := FLOAT32; storage_type := st |};
     dst_tensors_0 := {| data_type := FLOAT32; storage_type := st |};
     batch_support := batch |}.

Definition shift_by_7 : list (@ElementwiseOperation helpers) :=
  [ {| linked_name := "shift"; linked_value := 7 |} ].

(** An operation before its constructor ran: a 17 x 9 destination of 5
    channel groups, block (4, 4, 2), one linked operation. *)
Definition blank : ConvTexture (helpers := helpers) :=
  {| definition_ := definition F32 TEXTURE_2D false;
     src_0 := tensor 17 9 20 5 1 1%N;
     dst_0 := tensor 17 9 20 5 1 2%N;
     linked_operations_ := shift_by_7;
     weights_0_ := 10%N;
     weights_1_ := 11%N;
     weights_2_ := 12%N;
     weights_3_ := 13%N;
     biases_ := 14%N;
     kernel_size_ := Int2 0 0;
     stride_ := Int2 0 0;
     padding_ := Int2 0 0;
     dilation_ := Int2 0 0;
     block_size_ := Int3 4 4 2;
     kernel_ := accepting_kernel;
     work_group_size_ := Int3 0 0 0 |}.

Definition attributes (kw kh sw sh pw ph dw dh : Z) : Convolution2DAttributes :=
  {| strides := {| hw_h := sh; hw_w := sw |};
     dilations := {| hw_h := dh; hw_w := dw |};
     padding := {| prepended := {| hw_h := ph; hw_w := pw |};
                   appended := {| hw_h := ph; hw_w := pw |} |};
     weights_shape := {| ohwi_o := 20; ohwi_h := kh; ohwi_w := kw;
                         ohwi_i := 20 |} |}.

Definition with_block (b : int3) (op : ConvTexture (helpers := helpers))
  : ConvTexture (helpers := helpers) :=
  {| definition_ := definition_ op;
     src_0 := src_0 op;
     dst_0 := dst_0 op;
     linked_operations_ := linked_operations_ op;
     weights_0_ := weights_0_ op;
     weights_1_ := weights_1_ op;
     weights_2_ := weights_2_ op;
     weights_3_ := weights_3_ op;
     biases_ := biases_ op;
     kernel_size_ := kernel_size_ op;
     stride_ := stride_ op;
     padding_ := padding_ op;
     dilation_ := dilation_ op;
     block_size_ := b;
     kernel_ := kernel_ op;
     work_group_size_ := work_group_size_ op |}.

(** The 3x3 operation of the spec's example scenario: stride (1, 1),
    prepended padding (1, 1), dilation (1, 1), block (2, 2, 1), texture
    storage, single precision. *)
Definition conv3x3 : ConvTexture (helpers := helpers) :=
  ConvTexture_new (definition F32 TEXTURE_2D false)
    (attributes 3 3 1 1 1 1 1 1) (with_block (Int3 2 2 1) blank).

(** A 1x1 operation on an Adreno 4xx texture array in half precision, and a
    strided 3x3 operation with batch folded into the width. *)
Definition conv1x1_f16 : ConvTexture (helpers := helpers) :=
  ConvTexture_new (definition F16 TEXTURE_ARRAY false)
    (attributes 1 1 1 1 0 0 1 1) blank.

Definition conv3x3_batched : ConvTexture (helpers := helpers) :=
  ConvTexture_new (definition F32 TEXTURE_2D true)
    (attributes 3 3 2 2 1 1 1 1) blank.

Definition conv1x1_batched : ConvTexture (helpers := helpers) :=
  ConvTexture_new (definition F32 TEXTURE_2D true)
    (attributes 1 1 2 2 0 0 1 1) blank.

(** The strided operation with dilation (2, 2) on tensors of batch 3. *)
Definition with_batch (b : Z) (op : ConvTexture (helpers := helpers))
  : ConvTexture (helpers := helpers) :=
  {| definition_ := definition_ op;
     src_0 := tensor 17 9 20 5 b 1%N;
     dst_0 := tensor 17 9 20 5 b 2%N;
     linked_operations_ := linked_operations_ op;
     weights_0_ := weights_0_ op;
     weights_1_ := weights_1_ op;
     weights_2_ := weights_2_ op;
     weights_3_ := weights_3_ op;
     biases_ := biases_ op;
     kernel_size_ := kernel_size_ op;
     stride_ := stride_ op;
     padding_ := padding_ op;
     dilation_ := dilation_ op;
     block_size_ := block_size_ op;
     kernel_ := kernel_ op;
     work_group_size_ := work_group_size_ op |}.

Definition conv3x3_batch3 : ConvTexture (helpers := helpers) :=
  ConvTexture_new (definition F32 TEXTURE_2D true)
    (attributes 3 3 2 2 1 1 2 2) (with_batch 3 blank).

Definition context (d : Device) : CreationContext (helpers := helpers) :=
  @Build_CreationContext helpers d tt.

(** Values for the kernel variables the coordinate lines read. *)
Definition values : gmap string Z :=
  <["X" := 8]> (<["BATCH_SIZE" := 3]> (<["stride.x" := 2]>
    (<["padding.x" := -1]> ∅))).

Definition values_batch_1 : gmap string Z := <["BATCH_SIZE" := 1]> values.

End Sample.

(** ** What [BindArguments] hands to the setters *)

Section Binding.

Context {helpers : Helpers}.

(** The values bound after the destination tensor, in call order (lines
    369-381). *)
Definition BindArguments_scalars (op : ConvTexture) : list KernelArg :=
  [ ArgInt4 (BindArguments_src_size op);
    ArgInt4 (BindArguments_dst_size op) ] ++
  (if negb ((int2_x (kernel_size_ op) =? 1) && (int2_y (kernel_size_ op) =? 1))
   then [ ArgInt2 (kernel_size_ op);
          ArgInt2 (Int2 (int2_x (dilation_ op) * Batch (src_0 op))
                        (int2_y (dilation_ op))) ]
   else []) ++
  (if NeedStrideCorrection (definition_ op) (stride_ op)
   then [ ArgInt (Batch (dst_0 op)) ]
   else []) ++
  [ ArgInt2 (stride_ op);
    ArgInt2 (Int2 (int2_x (padding_ op) * Batch (src_0 op))
                  (int2_y (padding_ op))) ].

(** All the values, in call order (lines 355-381). *)
Definition BindArguments_arguments (op : ConvTexture) : list KernelArg :=
  [ ArgMem (GetMemoryPtr (src_0 op));
    ArgMem (weights_0_ op);
    ArgMem (weights_1_ op);
    ArgMem (weights_2_ op);
    ArgMem (weights_3_ op);
    ArgMem (biases_ op) ] ++
  LinkedArguments (linked_operations_ op) ++
  [ ArgMem (GetMemoryPtrForWriting (dst_0 op)) ] ++
  BindArguments_scalars op.

(** The member of the operation that feeds the scalar kernel parameter
    called [name]. *)
Definition scalar_argument (op : ConvTexture) (name : string)
  : option KernelArg :=
  if String.eqb name "src_size" then
    Some (ArgInt4 (BindArguments_src_size op))
  else if String.eqb name "dst_size" then
    Some (ArgInt4 (BindArguments_dst_size op))
  else if String.eqb name "kernel_size" then
    Some (ArgInt2 (kernel_size_ op))
  else if String.eqb name "dilation" then
    Some (ArgInt2 (Int2 (int2_x (dilation_ op) * Batch (src_0 op))
                        (int2_y (dilation_ op))))
  else if String.eqb name "BATCH_SIZE" then
    Some (ArgInt (Batch (dst_0 op)))
  else if String.eqb name "stride" then
    Some (ArgInt2 (stride_ op))
  else if String.eqb name "padding" then
    Some (ArgInt2 (Int2 (int2_x (padding_ op) * Batch (src_0 op))
                        (int2_y (padding_ op))))
  else None.

End Binding.

(** The kernel with its counter put at [c]. *)
Definition with_counter (c : nat) (k : CLKernel) : CLKernel :=
  {| clSetKernelArg := clSetKernelArg k;
     binding_counter_ := c;
     bound_args_ := bound_args_ k |}.

(** ** Tuning and dispatch *)

(** The tuner and the command queue live in other files
    (work_group_picking.h, cl_command_queue.h) and are parameters.
    [GetBestWorkGroupConv(params, kernel, grid, &work_group_size)] returns
    a status and what it leaves in [work_group_size], given what was there;
    [queue->DispatchImplicit(kernel, grid, work_group_size)] returns a
    status and the queue after the call. *)
Class DispatchHelpers := {
  TuningParameters : Type;
  GetBestWorkGroupConv : TuningParameters -> CLKernel -> int3 -> int3 ->
                         Status * int3;
  CLCommandQueue : Type;
  DispatchImplicit : CLCommandQueue -> CLKernel -> int3 -> int3 ->
                     Status * CLCommandQueue
}.

Section Dispatch.

Context {helpers : Helpers} {dispatch : DispatchHelpers}.

Definition set_work_group_size_ (op : ConvTexture) (w : int3) : ConvTexture :=
  {| definition_ := definition_ op;
     src_0 := src_0 op;
     dst_0 := dst_0 op;
     linked_operations_ := linked_operations_ op;
     weights_0_ := weights_0_ op;
     weights_1_ := weights_1_ op;
     weights_2_ := weights_2_ op;
     weights_3_ := weights_3_ op;
     biases_ := biases_ op;
     kernel_size_ := kernel_size_ op;
     stride_ := stride_ op;
     padding_ := padding_ op;
     dilation_ := dilation_ op;
     block_size_ := block_size_ op;
     kernel_ := kernel_ op;
     work_group_size_ := w |}.

(** [ConvTexture::Tune] (source lines 393-397). *)
Definition Tune (op : ConvTexture) (params : TuningParameters)
  : Status * ConvTexture :=
  match BindArguments op with
  | (OkStatus, op1) =>
      let '(status, w) :=
        GetBestWorkGroupConv params (kernel_ op1) (GetGridSize op1)
                             (work_group_size_ op1) in
      (status, set_work_group_size_ op1 w)
  | (err, op1) => (err, op1)
  end.

(** [ConvTexture::AddToQueue] (source lines 399-402). *)
Definition AddToQueue (op : ConvTexture) (queue : CLCommandQueue)
  : Status * ConvTexture * CLCommandQueue :=
  match BindArguments op with
  | (OkStatus, op1) =>
      let '(status, queue') :=
        DispatchImplicit queue (kernel_ op1) (GetGridSize op1)
                         (work_group_size_ op1) in
      (status, op1, queue')
  | (err, op1) => (err, op1, queue)
  end.

End Dispatch.


(** ** Picking lines out of the generated sequence *)





(** [occurs_in l m]: the fragments [l] stand side by side, in this order,
    somewhere in [m]. *)
Definition occurs_in (l m : list Fragment) : Prop :=
  exists before after, m = before ++ l ++ after.


(** ** The integer variables the coordinate lines read

    The tile origin [X], [Y] (lines 107-108) and the members of the scalar
    parameters, holding the values [BindArguments] binds to them (source
    lines 376-381): [BATCH_SIZE] is the batch of the destination, [stride]
    is [stride_], [padding] is [padding_] with its x member multiplied by
    the batch of the source. *)
Section KernelValues.

Context {helpers : Helpers}.

Definition kernel_values (op : ConvTexture) (X Y : Z) : gmap string Z :=
  <["X" := X]> (<["Y" := Y]>
    (<["BATCH_SIZE" := Batch (dst_0 op)]>
       (<["stride.x" := int2_x (stride_ op)]>
          (<["stride.y" := int2_y (stride_ op)]>
             (<["padding.x" := int2_x (padding_ op) * Batch (src_0 op)]>
                (<["padding.y" := int2_y (padding_ op)]> ∅)))))).

End KernelValues.


(** ** Brackets of the generated text

    [bracket_depth opening closing s]: the opening characters of [s] minus
    its closing ones; [nesting] sums it over the text the generator itself
    writes. *)
Fixpoint bracket_depth (opening closing : ascii) (s : string) : Z :=
  match s with
  | EmptyString => 0
  | String a s' =>
      (if Ascii.eqb a opening then 1
       else if Ascii.eqb a closing then -1 else 0) +
      bracket_depth opening closing s'
  end.

Fixpoint nesting (opening closing : ascii) (fs : list Fragment) : Z :=
  match fs with
  | [] => 0
  | Lit s :: fs' => bracket_depth opening closing s + nesting opening closing fs'
  | Ext _ :: fs' => nesting opening closing fs'
  end.


(** ** Names next to numerals

    A character of a decimal numeral, and a non-empty name holding none of
    them: such a name cannot run into a numeral written next to it. *)
Definition is_numeric (c : ascii) : bool := is_digit c || Ascii.eqb c "-".

Definition plain_name (s : string) : bool :=
  match s with
  | EmptyString => false
  | String _ _ => all_chars (fun c => negb (is_numeric c)) s
  end.

(** The scalar parameters the entry point declares under a condition
    (source lines 96-102). *)
Definition conditional_parameters : list string :=
  ["BATCH_SIZE"; "kernel_size"; "dilation"].


(** A tuner that always settles on (8, 4, 1) and a queue that logs what it
    is asked to run: the kernel's counter, the grid, the work-group size. *)
Module SampleDispatch.

Definition dispatch : DispatchHelpers :=
  {| TuningParameters := unit;
     GetBestWorkGroupConv := fun _ _ _ _ => (OkStatus, Int3 8 4 1);
     CLCommandQueue := list (nat * int3 * int3);
     DispatchImplicit := fun q k grid w =>
       (OkStatus, q ++ [(binding_counter_ k, grid, w)]) |}.

(** A kernel whose program has twelve parameters: the driver refuses
    positions from 12 on. *)
Definition twelve_parameters : CLKernel :=
  {| clSetKernelArg := fun i _ => (i <? 12)%nat;
     binding_counter_ := 5%nat;
     bound_args_ := ∅ |}.

End SampleDispatch.

(** * Properties *)

(** ** Grid sizing *)

Lemma IntegralDivideRoundUp_floor (n d : Z) :
  0 <= n -> 0 < d ->
  IntegralDivideRoundUp n d = if n mod d =? 0 then n / d else n / d + 1.
Proof.
  intros Hn Hd. unfold IntegralDivideRoundUp.
  rewrite Z.quot_div_nonneg, Z.rem_mod_nonneg by lia. reflexivity.
Qed.

Lemma IntegralDivideRoundUp_bounds (n d : Z) :
  0 <= n -> 0 < d ->
  n <= IntegralDivideRoundUp n d * d /\ (IntegralDivideRoundUp n d - 1) * d < n.
Proof.
  intros Hn Hd. rewrite IntegralDivideRoundUp_floor by assumption.
  pose proof (Z.div_mod n d ltac:(lia)) as E.
  pose proof (Z.mod_pos_bound n d Hd) as B.
  destruct (Z.eqb_spec (n mod d) 0) as [M|M]; nia.
Qed.

Lemma IntegralDivideRoundUp_ceiling (n d : Z) :
  0 <= n -> 0 < d -> IntegralDivideRoundUp n d = ceiling_divide n d.
Proof.
  intros Hn Hd.
  destruct (IntegralDivideRoundUp_bounds n d Hn Hd) as [Hlo Hhi].
  set (q := IntegralDivideRoundUp n d) in *.
  unfold ceiling_divide, Qceiling, Qfloor.
  destruct d as [|p|p]; try lia.
  cbn [inject_Z Qdiv Qinv Qmult Qopp Qnum Qden Z.opp].
  rewrite Z.mul_1_r, Pos.mul_1_l.
  symmetry. apply Z.opp_inj. rewrite Z.opp_involutive.
  symmetry. apply Z.div_unique with (r := q * Z.pos p - n); lia.
Qed.

Lemma tiles_cover_once (grid block extent : Z) :
  0 < block -> extent <= grid * block -> covered_once grid block extent.
Proof.
  intros Hb Hcover e He. exists (e / block).
  pose proof (Z.div_mod e block ltac:(lia)) as E.
  pose proof (Z.mod_pos_bound e block Hb) as B.
  split.
  - assert (0 <= e / block) by (apply Z.div_pos; lia). nia.
  - intros g' [Hg' Hin]. apply Z.div_unique with (r := e - g' * block); lia.
Qed.

(** C2.  For a destination of positive width, batch, height and depth and a
    positive block size, [GetGridSize] returns the ceilings of
    (width * batch) / block.x, height / block.y and depth / block.z; along
    each axis grid * block reaches the extent, (grid - 1) * block stays
    below it, and every element of the extent lies in the tile of exactly
    one invocation.  A 17 x 9 destination of depth 5 (batch 1) with block
    (4, 4, 2) gets the grid (5, 3, 3). *)
Theorem GetGridSize_covers `{helpers : Helpers} (op : ConvTexture) :
  let W := Width (dst_0 op) in
  let B := Batch (dst_0 op) in
  let H := Height (dst_0 op) in
  let D := Depth (dst_0 op) in
  let bx := int3_x (block_size_ op) in
  let by' := int3_y (block_size_ op) in
  let bz := int3_z (block_size_ op) in
  let grid := GetGridSize op in
  0 < W -> 0 < B -> 0 < H -> 0 < D -> 0 < bx -> 0 < by' -> 0 < bz ->
  grid = Int3 (ceiling_divide (W * B) bx) (ceiling_divide H by')
              (ceiling_divide D bz) /\
  (W * B <= int3_x grid * bx /\ (int3_x grid - 1) * bx < W * B) /\
  (H <= int3_y grid * by' /\ (int3_y grid - 1) * by' < H) /\
  (D <= int3_z grid * bz /\ (int3_z grid - 1) * bz < D) /\
  covered_once (int3_x grid) bx (W * B) /\
  covered_once (int3_y grid) by' H /\
  covered_once (int3_z grid) bz D /\
  (W = 17 -> B = 1 -> H = 9 -> D = 5 -> block_size_ op = Int3 4 4 2 ->
   grid = Int3 5 3 3).
Proof.
  intros W B H D bx by' bz grid HW HB HH HD Hbx Hby Hbz.
  assert (HWB : 0 <= W * B) by nia.
  pose proof (IntegralDivideRoundUp_bounds (W * B) bx HWB Hbx) as Hx.
  pose proof (IntegralDivideRoundUp_bounds H by' ltac:(lia) Hby) as Hy.
  pose proof (IntegralDivideRoundUp_bounds D bz ltac:(lia) Hbz) as Hz.
  subst grid. unfold GetGridSize. cbn [int3_x int3_y int3_z].
  fold W B H D bx by' bz.
  repeat split; try tauto.
  - rewrite !IntegralDivideRoundUp_ceiling by lia. reflexivity.
  - apply tiles_cover_once; tauto.
  - apply tiles_cover_once; tauto.
  - apply tiles_cover_once; tauto.
  - intros -> -> -> -> E. subst bx by' bz. rewrite E. reflexivity.
Qed.

Lemma GetGridSize_covers_sample :
  GetGridSize Sample.blank = Int3 5 3 3 /\
  covered_once 5 4 (17 * 1) /\ covered_once 3 4 9 /\ covered_once 3 2 5.
Proof.
  destruct (GetGridSize_covers (helpers := Sample.helpers) Sample.blank)
    as (_ & _ & _ & _ & Hx & Hy & Hz & Hgrid); try reflexivity.
  split; [ apply Hgrid; reflexivity | exact (conj Hx (conj Hy Hz)) ].
Defined.

(** ** Vendor decisions *)

(** C4.  [Compile] pushes the full-SIMD option exactly when [UseFP16SIMD]
    holds, and that is exactly when the device is an Adreno, the precision
    is F16, the device is an Adreno 3xx and the window is 1x1; for F32 and
    for F32_F16 it is never requested, whatever the device and the window.
    The request itself: [Compile] is one call of the program cache, for the
    generated text and the entry point main_function, whose option list is
    the full-SIMD option alone under these four conditions and empty
    otherwise, hence empty for every precision other than F16; the status
    and the cache are those the call returns and the kernel the one it
    stores. *)
Theorem UseFP16SIMD_exactly `{helpers : Helpers} :
  (forall (device : CLDevice) (p : CalculationsPrecision) (kernel1x1 : bool),
     UseFP16SIMD device p kernel1x1 = true <->
     IsAdreno device = true /\ p = F16 /\ IsAdreno3xx device = true /\
     kernel1x1 = true) /\
  (forall (device : CLDevice) (kernel1x1 : bool),
     UseFP16SIMD device F32 kernel1x1 = false /\
     UseFP16SIMD device F32_F16 kernel1x1 = false) /\
  (forall (op : ConvTexture) (creation_context : CreationContext),
     (In ADRENO_FULL_SIMD_LINE (Compile_options op creation_context) <->
      IsAdreno (device creation_context) = true /\
      precision (definition_ op) = F16 /\
      IsAdreno3xx (device creation_context) = true /\
      kernel_size_ op = Int2 1 1) /\
     (Compile_options op creation_context = [ADRENO_FULL_SIMD_LINE] \/
      Compile_options op creation_context = [])) /\
  (forall (op : ConvTexture) (creation_context : CreationContext),
     Compile op creation_context =
       (let '(status, kernel, cache') :=
          GetOrCreateCLKernel (cache creation_context)
            (Compile_code op creation_context) "main_function"
            (if IsAdreno (device creation_context) &&
                bool_decide (precision (definition_ op) = F16) &&
                IsAdreno3xx (device creation_context) &&
                bool_decide (kernel_size_ op = Int2 1 1)
             then [ADRENO_FULL_SIMD_LINE] else [])
            (device creation_context) in
        (status, set_kernel_ op kernel, cache'))) /\
  (forall (op : ConvTexture) (creation_context : CreationContext),
     precision (definition_ op) <> F16 ->
     Compile op creation_context =
       (let '(status, kernel, cache') :=
          GetOrCreateCLKernel (cache creation_context)
            (Compile_code op creation_context) "main_function" []
            (device creation_context) in
        (status, set_kernel_ op kernel, cache'))).
Proof.
  assert (Hiff : forall (device : CLDevice) p kernel1x1,
     UseFP16SIMD device p kernel1x1 = true <->
     IsAdreno device = true /\ p = F16 /\ IsAdreno3xx device = true /\
     kernel1x1 = true).
  { intros dev p k. unfold UseFP16SIMD.
    destruct (IsAdreno dev), p, (IsAdreno3xx dev), k; cbn;
      intuition congruence. }
  assert (Hopt : forall (op : ConvTexture) (ctx : CreationContext),
     Compile_options op ctx =
       if IsAdreno (device ctx) &&
          bool_decide (precision (definition_ op) = F16) &&
          IsAdreno3xx (device ctx) &&
          bool_decide (kernel_size_ op = Int2 1 1)
       then [ADRENO_FULL_SIMD_LINE] else []).
  { intros op ctx. unfold Compile_options, UseFP16SIMD, Compile_is1x1.
    assert (K : (int2_x (kernel_size_ op) =? 1) &&
                (int2_y (kernel_size_ op) =? 1) =
                bool_decide (kernel_size_ op = Int2 1 1)).
    { destruct (kernel_size_ op) as [kx ky]. cbn.
      destruct (Z.eqb_spec kx 1) as [->|Nx], (Z.eqb_spec ky 1) as [->|Ny];
        cbn; symmetry;
        first [ now apply bool_decide_eq_true
              | apply bool_decide_eq_false; congruence ]. }
    rewrite K.
    destruct (IsAdreno (device ctx)), (precision (definition_ op)),
      (IsAdreno3xx (device ctx)), (bool_decide (kernel_size_ op = Int2 1 1));
      reflexivity. }
  split; [exact Hiff|]. split; [|split; [|split]].
  - intros dev k. unfold UseFP16SIMD. destruct (IsAdreno dev); auto.
  - intros op ctx. unfold Compile_options.
    destruct (UseFP16SIMD (device ctx) (precision (definition_ op))
                (Compile_is1x1 op)) eqn:E.
    + split; [|left; reflexivity].
      apply Hiff in E. destruct E as (A & P & A3 & K).
      unfold Compile_is1x1 in K. apply andb_true_iff in K.
      destruct K as [Kx Ky]. apply Z.eqb_eq in Kx, Ky.
      split; [intros _|intros _; cbn; auto].
      repeat split; try assumption.
      destruct (kernel_size_ op); cbn in *; congruence.
    + split; [|right; reflexivity].
      split; [intros []|].
      intros (A & P & A3 & K).
      assert (UseFP16SIMD (device ctx) (precision (definition_ op))
                (Compile_is1x1 op) = true); [|congruence].
      apply Hiff. repeat split; try assumption.
      unfold Compile_is1x1. rewrite K. reflexivity.
  - intros op ctx. unfold Compile. now rewrite Hopt.
  - intros op ctx Hp. unfold Compile. rewrite Hopt.
    destruct (precision (definition_ op)); try congruence;
      cbn [bool_decide decide_rel]; now rewrite ?andb_false_r.
Qed.

(** The flag of [Compile], as a conjunction of its seven comparisons. *)
Lemma Compile_adreno4xx_optimization_true `{helpers : Helpers}
  (op : ConvTexture) (creation_context : CreationContext) :
  Compile_adreno4xx_optimization op creation_context = true <->
  stride_ op = Int2 1 1 /\ padding_ op = Int2 0 0 /\
  IsAdreno4xx (device creation_context) = true /\
  GetPrimaryStorageType (definition_ op) = TEXTURE_ARRAY /\
  precision (definition_ op) = F16.
Proof.
  unfold Compile_adreno4xx_optimization.
  rewrite !andb_true_iff, !Z.eqb_eq, !bool_decide_eq_true.
  destruct (stride_ op) as [sx sy], (padding_ op) as [px py]; cbn.
  split.
  - intros ((((((-> & ->) & ->) & ->) & A) & S) & P). auto.
  - intros (Es & Ep & A & S & P). inversion Es; inversion Ep. auto 10.
Qed.

(** ** The generated text *)

Lemma append_assoc (a b c : string) : (a +:+ b) +:+ c = a +:+ (b +:+ c).
Proof.
  induction a as [|ch a IH]; [reflexivity|].
  change (String ch ((a +:+ b) +:+ c) = String ch (a +:+ (b +:+ c))).
  now rewrite IH.
Qed.

Lemma render_app (fs gs : list Fragment) :
  render (fs ++ gs) = render fs +:+ render gs.
Proof.
  induction fs as [|f fs IH]; [reflexivity|].
  change (fragment_text f +:+ render (fs ++ gs) =
          (fragment_text f +:+ render fs) +:+ render gs).
  now rewrite IH, append_assoc.
Qed.

Lemma count_mentions_app (needle : string) (fs gs : list Fragment) :
  count_mentions needle (fs ++ gs) =
  (count_mentions needle fs + count_mentions needle gs)%nat.
Proof. unfold count_mentions. now rewrite List.filter_app, length_app. Qed.

(** ** Parts of the generated text *)

Lemma in_upto (i n : Z) : In i (upto n) <-> 0 <= i < n.
Proof.
  unfold upto. rewrite in_map_iff. split.
  - intros (k & <- & Hk). apply in_seq in Hk. lia.
  - intros H. exists (Z.to_nat i). split; [lia|]. apply in_seq. lia.
Qed.

Lemma occurs_in_refl (l : list Fragment) : occurs_in l l.
Proof. exists [], []. now rewrite app_nil_r. Qed.

Lemma occurs_in_app_l (l m1 m2 : list Fragment) :
  occurs_in l m1 -> occurs_in l (m1 ++ m2).
Proof.
  intros (b & a & ->). exists b, (a ++ m2). now rewrite <- !app_assoc.
Qed.

Lemma occurs_in_app_r (l m1 m2 : list Fragment) :
  occurs_in l m2 -> occurs_in l (m1 ++ m2).
Proof.
  intros (b & a & ->). exists (m1 ++ b), a. now rewrite <- !app_assoc.
Qed.

Lemma occurs_in_cons (l : list Fragment) (f : Fragment) (m : list Fragment) :
  occurs_in l m -> occurs_in l (f :: m).
Proof. apply (occurs_in_app_r l [f] m). Qed.

Lemma occurs_in_flat_map {A : Type} (l : list Fragment)
  (f : A -> list Fragment) (a : A) (xs : list A) :
  In a xs -> occurs_in l (f a) -> occurs_in l (flat_map f xs).
Proof.
  induction xs as [|b xs IH]; intros Hin H; [destruct Hin|].
  cbn [flat_map]. destruct Hin as [-> | Hin].
  - now apply occurs_in_app_l.
  - apply occurs_in_app_r. now apply IH.
Qed.

Lemma occurs_in_head (l m : list Fragment) : occurs_in l (l ++ m).
Proof. exists [], m. reflexivity. Qed.

Lemma occurs_in_trans (l m n : list Fragment) :
  occurs_in l m -> occurs_in m n -> occurs_in l n.
Proof.
  intros (b & a & ->) (b' & a' & ->).
  exists (b' ++ b), (a ++ a'). now rewrite <- !app_assoc.
Qed.

Section Parts.

Context {helpers : Helpers}.

(** The store of every tile element of the block is part of the
    epilogue. *)
Lemma TileStore_in_Epilogue (block_size : int3) (dx dy : string)
  (dst_tensor : TensorCodeGenerator)
  (linked_operations : list ElementwiseOperation) (z y x : Z) :
  0 <= x < int3_x block_size -> 0 <= y < int3_y block_size ->
  0 <= z < int3_z block_size ->
  occurs_in (TileStore block_size dx dy dst_tensor linked_operations z y x)
            (Epilogue block_size dx dy dst_tensor linked_operations).
Proof.
  intros Hx Hy Hz. unfold Epilogue, EpilogueSlice.
  apply occurs_in_flat_map with (a := z); [now apply in_upto|].
  apply occurs_in_app_r, occurs_in_app_l.
  apply occurs_in_flat_map with (a := y); [now apply in_upto|].
  apply occurs_in_flat_map with (a := x); [now apply in_upto|].
  apply occurs_in_refl.
Qed.

(** The epilogue and the source coordinates are parts of the text. *)
Lemma Epilogue_in_text (op_def : OperationDef) (block_size : int3)
  (is1x1 adreno4xx_optimization : bool) (stride : int2) (device : CLDevice)
  (linked_operations : list ElementwiseOperation) :
  occurs_in
    (Epilogue block_size (dst_x is1x1 adreno4xx_optimization)
       (dst_y is1x1 adreno4xx_optimization)
       {| tensor_name := "dst_data"; tensor_size_name := "dst_size";
          tensor_descriptor := dst_tensors_0 op_def |} linked_operations)
    (GenerateConvCode_fragments op_def block_size is1x1
       adreno4xx_optimization stride device linked_operations).
Proof.
  unfold GenerateConvCode_fragments. cbv zeta.
  do 9 apply occurs_in_app_r. apply occurs_in_head.
Qed.

Lemma SourceCoordinates_in_text (op_def : OperationDef) (block_size : int3)
  (is1x1 adreno4xx_optimization : bool) (stride : int2) (device : CLDevice)
  (linked_operations : list ElementwiseOperation) :
  occurs_in
    (SourceCoordinates op_def block_size stride)
    (GenerateConvCode_fragments op_def block_size is1x1
       adreno4xx_optimization stride device linked_operations).
Proof.
  unfold GenerateConvCode_fragments. cbv zeta.
  do 4 apply occurs_in_app_r. apply occurs_in_head.
Qed.

(** A part of the sequence of appends is a part of the text [Compile]
    hands to the program cache. *)
Lemma occurs_in_Compile_code (l : list Fragment) (op : ConvTexture)
  (creation_context : CreationContext) :
  occurs_in l (Compile_fragments op creation_context) ->
  exists before after : list Fragment,
    Compile_fragments op creation_context = before ++ l ++ after /\
    Compile_code op creation_context =
      render before +:+ render l +:+ render after.
Proof.
  intros (b & a & E). exists b, a. split; [exact E|].
  unfold Compile_code, GenerateConvCode.
  unfold Compile_fragments in E. rewrite E.
  now rewrite !render_app.
Qed.

End Parts.


(** ** The meaning of the generated coordinate declarations *)

Section Meaning.

#[local] Arguments String.append !_ _ : simpl nomatch.

Lemma string_of_uint_digits (u : Decimal.uint) :
  all_chars is_digit (NilEmpty.string_of_uint u) = true.
Proof. induction u; cbn; auto. Qed.

Lemma digits_are_words (s : string) :
  all_chars is_digit s = true -> all_chars is_word_char s = true.
Proof.
  induction s as [|c s IH]; [reflexivity|].
  cbn. rewrite !andb_true_iff. intros [Hc Hs]. split; [|auto].
  destruct c as [[|] [|] [|] [|] [|] [|] [|] [|]]; cbn in Hc |- *;
    reflexivity || discriminate.
Qed.

Lemma to_string_spec (x : Z) :
  0 <= x ->
  all_chars is_digit (to_string x) = true /\
  (exists c s, to_string x = String c s) /\
  NilZero.int_of_string (to_string x) = Some (Z.to_int x).
Proof.
  intros Hx. unfold to_string. split; [|split].
  - destruct x as [|p|p]; [reflexivity| |lia].
    cbn. destruct (Pos.to_uint p); try apply string_of_uint_digits.
    reflexivity.
  - destruct x as [|p|p]; [cbn; eauto| |lia].
    cbn. destruct (Pos.to_uint p); cbn; eauto.
  - apply NilZero.isi.
    + destruct x as [|p|p]; cbn; try discriminate.
      intros [= E]. revert E. apply DecimalPos.Unsigned.to_uint_nonnil.
    + destruct x as [|p|p]; cbn; try discriminate. lia.
Qed.

Lemma append_empty_r (s : string) : s +:+ EmptyString = s.
Proof.
  induction s as [|c s IH]; [reflexivity|].
  change (String c (s +:+ EmptyString) = String c s). now rewrite IH.
Qed.

Lemma tokens_from_word (current d rest : string) :
  all_chars is_word_char d = true ->
  tokens_from current (d +:+ rest) = tokens_from (current +:+ d) rest.
Proof.
  revert current. induction d as [|c d IH]; intros current H.
  - now rewrite append_empty_r.
  - cbn in H. apply andb_true_iff in H. destruct H as [Hc Hd].
    change (tokens_from current (String c (d +:+ rest)) =
            tokens_from (current +:+ String c d) rest).
    change (tokens_from current (String c (d +:+ rest)))
      with (if is_word_char c
            then tokens_from (current +:+ String c EmptyString) (d +:+ rest)
            else if is_blank c
                 then flush current (tokens_from EmptyString (d +:+ rest))
                 else flush current
                        (TPunct c :: tokens_from EmptyString (d +:+ rest))).
    rewrite Hc, (IH _ Hd). f_equal.
    now rewrite append_assoc.
Qed.

Lemma word_value_number (env : gmap string Z) (x : Z) :
  0 <= x -> word_value env (to_string x) = Some x.
Proof.
  intros Hx. unfold word_value.
  destruct (to_string_spec x Hx) as (_ & _ & ->).
  now rewrite DecimalZ.of_to.
Qed.

Lemma word_value_name (env : gmap string Z) (c : ascii) (w : string) :
  is_word_char c = true ->
  (48 <=? nat_of_ascii c)%nat && (nat_of_ascii c <=? 57)%nat = false ->
  word_value env (String c w) = env !! String c w.
Proof.
  intros Hw Hc. unfold word_value, NilZero.int_of_string.
  destruct (Ascii.eqb_spec c "-") as [->|_]; [discriminate|].
  unfold NilZero.uint_of_string. cbn [NilEmpty.uint_of_string].
  destruct (NilEmpty.uint_of_string w) as [u|]; [|reflexivity].
  destruct c as [[|] [|] [|] [|] [|] [|] [|] [|]]; cbn in Hc |- *;
    try reflexivity; discriminate.
Qed.

Lemma flush_word (c : ascii) (s : string) (rest : list Token) :
  flush (String c s) rest = TWord (String c s) :: rest.
Proof. reflexivity. Qed.

(** The words and signs of the lines written for block column [x]. *)
Lemma SourceXCoordinate_tokens (x : Z) :
  0 <= x ->
  let d := to_string x in
  tokens_from EmptyString (render (SourceXCoordinate true x)) =
    [ TWord "int"; TWord ("p" +:+ d); TPunct "="; TPunct "("; TWord "X";
      TPunct "+"; TWord d; TPunct ")"; TPunct "/"; TWord "BATCH_SIZE";
      TPunct ";";
      TWord "int"; TWord ("b" +:+ d); TPunct "="; TPunct "("; TWord "X";
      TPunct "+"; TWord d; TPunct ")"; TPunct "%"; TWord "BATCH_SIZE";
      TPunct ";";
      TWord "int"; TWord ("xc" +:+ d); TPunct "="; TWord ("p" +:+ d);
      TPunct "*"; TWord "BATCH_SIZE"; TPunct "*"; TWord "stride.x";
      TPunct "+"; TWord ("b" +:+ d); TPunct "+"; TWord "padding.x";
      TPunct ";" ] /\
  tokens_from EmptyString (render (SourceXCoordinate false x)) =
    [ TWord "int"; TWord ("xc" +:+ d); TPunct "="; TPunct "("; TWord "X";
      TPunct "+"; TWord d; TPunct ")"; TPunct "*"; TWord "stride.x";
      TPunct "+"; TWord "padding.x"; TPunct ";" ].
Proof.
  intros Hx d. destruct (to_string_spec x Hx) as (Hd & (c & s & Hne) & _).
  apply digits_are_words in Hd.
  unfold SourceXCoordinate. fold d in Hd, Hne |- *.
  assert (Hflush : forall rest, flush d rest = TWord d :: rest).
  { intros rest. now rewrite Hne. }
  clearbody d. clear Hne.
  split.
  - cbn.
    repeat (progress (rewrite ?append_assoc, ?tokens_from_word, ?Hflush
                        by exact Hd; cbn)).
    reflexivity.
  - cbn.
    repeat (progress (rewrite ?append_assoc, ?tokens_from_word, ?Hflush
                        by exact Hd; cbn)).
    reflexivity.
Qed.

(** What the generated declarations compute.  From values for [X],
    [BATCH_SIZE] (not zero), [stride.x] and [padding.x], the three lines
    written under stride correction for block column [x] declare [p], [b]
    and [xc] with the values [PixelIndex], [BatchIndex] and
    [BatchFoldedSourceX]; the line written otherwise declares [xc] with the
    value [AffineSourceX]. *)
Lemma SourceXCoordinate_meaning (x X B s p : Z) (env : gmap string Z) :
  0 <= x ->
  env !! "X" = Some X -> env !! "BATCH_SIZE" = Some B -> B <> 0 ->
  env !! "stride.x" = Some s -> env !! "padding.x" = Some p ->
  let d := to_string x in
  run (render (SourceXCoordinate true x)) env =
    Some (<["xc" +:+ d := BatchFoldedSourceX X x B s p]>
            (<["b" +:+ d := BatchIndex X x B]>
               (<["p" +:+ d := PixelIndex X x B]> env))) /\
  run (render (SourceXCoordinate false x)) env =
    Some (<["xc" +:+ d := AffineSourceX X x s p]> env).
Proof.
  intros Hx HX HB HB0 Hs Hp d.
  destruct (SourceXCoordinate_tokens x Hx) as [Ht Hf]. fold d in Ht, Hf.
  destruct (to_string_spec x Hx) as (Hdig & _). fold d in Hdig.
  assert (Hnum : forall e : gmap string Z, word_value e d = Some x).
  { intros e. now apply word_value_number. }
  assert (Hname : forall (e : gmap string Z) (c : ascii) (w : string),
            is_word_char c = true ->
            (48 <=? nat_of_ascii c)%nat && (nat_of_ascii c <=? 57)%nat = false ->
            word_value e (String c w) = e !! String c w)
    by (intros; now apply word_value_name).
  apply Z.eqb_neq in HB0.
  unfold run. rewrite Ht, Hf. clearbody d. clear Ht Hf.
  unfold BatchFoldedSourceX, AffineSourceX, PixelIndex, BatchIndex.
  split.
  - repeat (progress (cbn -[word_value Z.quot Z.rem Z.mul Z.add];
                      rewrite ?Hnum, ?Hname by reflexivity;
                      rewrite ?lookup_insert_eq;
                      repeat rewrite lookup_insert_ne
                        by first [ discriminate
                                 | intros [= E]; rewrite E in Hdig;
                                   discriminate ];
                      rewrite ?HX, ?HB, ?Hs, ?Hp, ?HB0)).
    reflexivity.
  - repeat (progress (cbn -[word_value Z.quot Z.rem Z.mul Z.add];
                      rewrite ?Hnum, ?Hname by reflexivity;
                      rewrite ?HX, ?HB, ?Hs, ?Hp, ?HB0)).
    reflexivity.
Qed.

End Meaning.

(** C5.  [NeedStrideCorrection] holds exactly when the definition folds the
    batch into the width and stride.x is not 1.  In that case the generator
    writes, for every block column [x], the pixel index
    [(X + x) / BATCH_SIZE], the batch index [(X + x) % BATCH_SIZE] and the
    coordinate [p * BATCH_SIZE * stride.x + b + padding.x]; in every other
    case it writes the affine form [(X + x) * stride.x + padding.x].  These
    lines are part of the text [GenerateConvCode] returns.  Run as OpenCL C
    declarations from values of X, BATCH_SIZE (not zero), stride.x and
    padding.x, the three lines declare p, b and xc with the values
    (X + x) / BATCH_SIZE, (X + x) % BATCH_SIZE and
    p * BATCH_SIZE * stride.x + b + padding.x, and the single line declares
    xc with the value (X + x) * stride.x + padding.x. *)
Theorem stride_correction_addressing `{helpers : Helpers}
  (op_def : OperationDef) (block_size : int3)
  (is1x1 adreno4xx_optimization : bool) (stride : int2) (device : CLDevice)
  (linked_operations : list ElementwiseOperation) :
  (NeedStrideCorrection op_def stride = true <->
   batch_support op_def = true /\ int2_x stride <> 1) /\
  (forall x : Z,
     SourceXCoordinate true x =
       [ Lit ("  int p" +:+ to_string x +:+ " = (X + " +:+ to_string x +:+
              ") / BATCH_SIZE;" +:+ LF);
         Lit ("  int b" +:+ to_string x +:+ " = (X + " +:+ to_string x +:+
              ") % BATCH_SIZE;" +:+ LF);
         Lit ("  int xc" +:+ to_string x +:+ " = p" +:+ to_string x +:+
              " * BATCH_SIZE * stride.x + b" +:+ to_string x +:+
              " + padding.x;" +:+ LF) ] /\
     SourceXCoordinate false x =
       [ Lit ("  int xc" +:+ to_string x +:+ " = (X +" +:+ to_string x +:+
              ") * stride.x + padding.x;" +:+ LF) ]) /\
  (exists before after : list Fragment,
    let columns :=
      flat_map (SourceXCoordinate (NeedStrideCorrection op_def stride))
               (upto (int3_x block_size)) in
    GenerateConvCode_fragments op_def block_size is1x1
      adreno4xx_optimization stride device linked_operations =
      before ++ columns ++ after /\
    GenerateConvCode op_def block_size is1x1 adreno4xx_optimization stride
      device linked_operations =
      render before +:+ render columns +:+ render after) /\
  (forall (x X B s p : Z) (env : gmap string Z),
     0 <= x ->
     env !! "X" = Some X -> env !! "BATCH_SIZE" = Some B -> B <> 0 ->
     env !! "stride.x" = Some s -> env !! "padding.x" = Some p ->
     run (render (SourceXCoordinate true x)) env =
       Some (<["xc" +:+ to_string x :=
                 Z.quot (X + x) B * B * s + Z.rem (X + x) B + p]>
               (<["b" +:+ to_string x := Z.rem (X + x) B]>
                  (<["p" +:+ to_string x := Z.quot (X + x) B]> env))) /\
     run (render (SourceXCoordinate false x)) env =
       Some (<["xc" +:+ to_string x := (X + x) * s + p]> env)).
Proof.
  split; [|split; [|split]]; [| | |exact SourceXCoordinate_meaning].
  - unfold NeedStrideCorrection.
    rewrite andb_true_iff, negb_true_iff, Z.eqb_neq. reflexivity.
  - intros x. split; reflexivity.
  - eexists. eexists. cbv zeta.
    assert (E : forall before after columns,
      GenerateConvCode_fragments op_def block_size is1x1
        adreno4xx_optimization stride device linked_operations =
        before ++ columns ++ after ->
      GenerateConvCode_fragments op_def block_size is1x1
        adreno4xx_optimization stride device linked_operations =
        before ++ columns ++ after /\
      GenerateConvCode op_def block_size is1x1 adreno4xx_optimization stride
        device linked_operations =
        render before +:+ render columns +:+ render after).
    { intros b a c E. split; [exact E|].
      unfold GenerateConvCode. now rewrite E, !render_app. }
    apply E. unfold GenerateConvCode_fragments, SourceCoordinates.
    rewrite <- (app_assoc (flat_map _ _) (flat_map SourceYCoordinate _)).
    rewrite (app_assoc [Ext _]), (app_assoc _ (KernelSignature _ _ _ _ _ _)),
      (app_assoc _ (TileOrigin _)).
    reflexivity.
Qed.

Lemma stride_correction_addressing_sample :
  run (render (SourceXCoordinate true 1)) Sample.values =
    Some (<["xc1" := 17]> (<["b1" := 0]> (<["p1" := 3]> Sample.values))) /\
  run (render (SourceXCoordinate false 1)) Sample.values =
    Some (<["xc1" := 17]> Sample.values).
Proof.
  destruct (stride_correction_addressing (helpers := Sample.helpers)
              (Sample.definition F32 TEXTURE_2D true) (Int3 4 4 2) false
              false (Int2 2 2) Sample.Mali Sample.shift_by_7)
    as (_ & _ & _ & H).
  apply (H 1 8 3 2 (-1) Sample.values); reflexivity || lia.
Defined.

(** ** The two x-addressing forms *)

Lemma BatchFoldedSourceX_batch_1 (X x stride_x padding_x : Z) :
  PixelIndex X x 1 = X + x /\ BatchIndex X x 1 = 0 /\
  BatchFoldedSourceX X x 1 stride_x padding_x =
  AffineSourceX X x stride_x padding_x.
Proof.
  unfold BatchFoldedSourceX, AffineSourceX, PixelIndex, BatchIndex.
  rewrite Z.quot_1_r, Z.rem_1_r. repeat split; lia.
Qed.

(** C6.  For a coordinate [c = X + x >= 0], any stride [s] and padding [p],
    batch size 1 makes the pixel index the coordinate itself and the batch
    index 0, so the batch-folded form [(c / 1) * 1 * s + c % 1 + p] equals
    the affine form [c * s + p]; run with BATCH_SIZE = 1, the lines
    generated under stride correction and the line generated without it
    declare the same source x-coordinate. *)
Theorem stride_correction_batch_1 (X x s p : Z) (env : gmap string Z) :
  0 <= X + x ->
  PixelIndex X x 1 = X + x /\
  BatchIndex X x 1 = 0 /\
  BatchFoldedSourceX X x 1 s p =
    Z.quot (X + x) 1 * 1 * s + Z.rem (X + x) 1 + p /\
  AffineSourceX X x s p = (X + x) * s + p /\
  BatchFoldedSourceX X x 1 s p = AffineSourceX X x s p /\
  (0 <= x ->
   env !! "X" = Some X -> env !! "BATCH_SIZE" = Some 1 ->
   env !! "stride.x" = Some s -> env !! "padding.x" = Some p ->
   exists folded affine : gmap string Z,
     run (render (SourceXCoordinate true x)) env = Some folded /\
     run (render (SourceXCoordinate false x)) env = Some affine /\
     folded !! ("xc" +:+ to_string x) = Some ((X + x) * s + p) /\
     affine !! ("xc" +:+ to_string x) = Some ((X + x) * s + p)).
Proof.
  intros _. destruct (BatchFoldedSourceX_batch_1 X x s p) as (P & B & E).
  repeat (split; [assumption || reflexivity|]).
  intros Hx HX HB Hs Hp.
  destruct (SourceXCoordinate_meaning x X 1 s p env Hx HX HB ltac:(lia) Hs Hp)
    as [Hf Ha].
  eexists. eexists. split; [exact Hf|]. split; [exact Ha|].
  rewrite !lookup_insert_eq. rewrite E. split; reflexivity.
Qed.

Lemma stride_correction_batch_1_sample :
  BatchFoldedSourceX 8 3 1 2 (-1) = AffineSourceX 8 3 2 (-1) /\
  AffineSourceX 8 3 2 (-1) = 21 /\
  exists folded affine : gmap string Z,
    run (render (SourceXCoordinate true 3)) Sample.values_batch_1 =
      Some folded /\
    run (render (SourceXCoordinate false 3)) Sample.values_batch_1 =
      Some affine /\
    folded !! "xc3" = Some 21 /\ affine !! "xc3" = Some 21.
Proof.
  destruct (stride_correction_batch_1 8 3 2 (-1) Sample.values_batch_1)
    as (_ & _ & _ & _ & E & H); [lia|].
  split; [exact E|]. split; [reflexivity|].
  apply H; reflexivity || lia.
Defined.

(** What the generator reads of its inputs: of the definition the
    precision and the two tensor descriptors, of the definition and the
    stride together only [NeedStrideCorrection], of the vendor flag only its
    conjunction with [is1x1], and of the device only the zero mode, and that
    only when the source is not an image buffer. *)
Lemma GenerateConvCode_fragments_reads `{helpers : Helpers}
  (op_def op_def' : OperationDef) (block_size : int3)
  (is1x1 a4 a4' : bool) (stride stride' : int2) (device device' : CLDevice)
  (linked_operations : list ElementwiseOperation) :
  precision op_def = precision op_def' ->
  src_tensors_0 op_def = src_tensors_0 op_def' ->
  dst_tensors_0 op_def = dst_tensors_0 op_def' ->
  NeedStrideCorrection op_def stride = NeedStrideCorrection op_def' stride' ->
  is1x1 && a4 = is1x1 && a4' ->
  (storage_type (src_tensors_0 op_def) <> IMAGE_BUFFER ->
   GetFastestZeroMode device = GetFastestZeroMode device') ->
  GenerateConvCode_fragments op_def block_size is1x1 a4 stride device
    linked_operations =
  GenerateConvCode_fragments op_def' block_size is1x1 a4' stride' device'
    linked_operations.
Proof.
  intros Hp Hs Hd Hn Ha Hm.
  unfold GenerateConvCode_fragments, KernelSignature, SourceCoordinates,
    dst_x, dst_y.
  rewrite <- Hp, <- Hs, <- Hd, <- Hn, <- Ha.
  do 7 f_equal.
  unfold ReductionLoop.
  destruct (bool_decide (storage_type (src_tensors_0 op_def) = IMAGE_BUFFER))
    eqn:E; [reflexivity|].
  apply bool_decide_eq_false in E. cbn [negb]. now rewrite (Hm E).
Qed.



(** C3.  The flag [adreno4xx_optimization] of [Compile] is true exactly
    when the stride is (1, 1), the stored padding is (0, 0), the device is
    an Adreno 4xx, the primary storage type is TEXTURE_ARRAY and the
    precision is F16; it is false as soon as one of the five fails.  When it
    is true and the window is 1x1, the epilogue of the generated text is
    the one that starts the destination coordinates from xc0 and yc0: for
    every tile element (x, y) of every block slice z the text [Compile]
    generates declares xc as xc0 + x and yc as yc0 + y and writes the result
    at (xc, yc, Z); and xc0 and yc0 are the source coordinates of column 0
    and row 0, declared earlier in the same text.  When the flag is false or
    the window is not 1x1 the same store starts from X and Y. *)
Theorem adreno4xx_optimization_gating `{helpers : Helpers}
  (op : ConvTexture) (creation_context : CreationContext) :
  let flag := Compile_adreno4xx_optimization op creation_context in
  let dst_tensor :=
    {| tensor_name := "dst_data"; tensor_size_name := "dst_size";
       tensor_descriptor := dst_tensors_0 (definition_ op) |} in
  let bx := int3_x (block_size_ op) in
  let by' := int3_y (block_size_ op) in
  let bz := int3_z (block_size_ op) in
  let store (dx dy : string) (z y x : Z) :=
    [ Lit ("    {" +:+ LF);
      Lit ("      int xc = " +:+ dx +:+ " + " +:+ to_string x +:+ ";" +:+ LF);
      Lit ("      int yc = " +:+ dy +:+ " + " +:+ to_string y +:+ ";" +:+ LF);
      Lit ("      if (xc < dst_size.x && yc < dst_size.y) {" +:+ LF);
      Lit ("        FLT4 res = TO_FLT4(r" +:+
           to_string ((z * by' + y) * bx + x) +:+ ") + bias_val;" +:+ LF);
      Ext (PostProcess (linked_operations_ op)
             {| var_name := "res"; x_coord := "xc"; y_coord := "yc";
                z_coord := "Z" |});
      Lit "        "; Ext (Write3D dst_tensor "res" "xc" "yc" "Z"); Lit LF;
      Lit ("      }" +:+ LF);
      Lit ("    }" +:+ LF) ] in
  let written (part : list Fragment) :=
    exists before after : list Fragment,
      Compile_fragments op creation_context = before ++ part ++ after /\
      Compile_code op creation_context =
        render before +:+ render part +:+ render after in
  (flag = true <->
   stride_ op = Int2 1 1 /\ padding_ op = Int2 0 0 /\
   IsAdreno4xx (device creation_context) = true /\
   GetPrimaryStorageType (definition_ op) = TEXTURE_ARRAY /\
   precision (definition_ op) = F16) /\
  (stride_ op <> Int2 1 1 \/ padding_ op <> Int2 0 0 \/
   IsAdreno4xx (device creation_context) = false \/
   GetPrimaryStorageType (definition_ op) <> TEXTURE_ARRAY \/
   precision (definition_ op) <> F16 ->
   flag = false) /\
  (flag = true -> Compile_is1x1 op = true ->
   (exists before : list Fragment,
      Compile_fragments op creation_context =
        before ++
        Epilogue (block_size_ op) "xc0" "yc0" dst_tensor
                 (linked_operations_ op) ++
        [ Lit ("}" +:+ LF) ]) /\
   (forall z y x : Z, exists store : list Fragment,
      TileStore (block_size_ op) "xc0" "yc0" dst_tensor
                (linked_operations_ op) z y x =
        Lit ("    {" +:+ LF) ::
        Lit ("      int xc = xc0 + " +:+ to_string x +:+ ";" +:+ LF) ::
        Lit ("      int yc = yc0 + " +:+ to_string y +:+ ";" +:+ LF) ::
        Lit BoundsCheck :: store) /\
   (forall z y x : Z, 0 <= x < bx -> 0 <= y < by' -> 0 <= z < bz ->
      written (store "xc0" "yc0" z y x) /\
      written [ Lit ("  int xc0 = (X +0) * stride.x + padding.x;" +:+ LF) ] /\
      written [ Lit ("  int yc0 = (Y +0) * stride.y + padding.y;" +:+ LF) ])) /\
  (flag = false \/ Compile_is1x1 op = false ->
   forall z y x : Z, 0 <= x < bx -> 0 <= y < by' -> 0 <= z < bz ->
     written (store "X" "Y" z y x)).
Proof.
  intros flag dst_tensor bx by' bz store written.
  pose proof (Compile_adreno4xx_optimization_true op creation_context) as Hiff.
  fold flag in Hiff.
  assert (Hstore : forall z y x : Z,
            0 <= x < bx -> 0 <= y < by' -> 0 <= z < bz ->
            written (store (dst_x (Compile_is1x1 op) flag)
                           (dst_y (Compile_is1x1 op) flag) z y x)).
  { intros z y x Hx Hy Hz. apply occurs_in_Compile_code.
    apply occurs_in_trans
      with (m := Epilogue (block_size_ op) (dst_x (Compile_is1x1 op) flag)
                   (dst_y (Compile_is1x1 op) flag) dst_tensor
                   (linked_operations_ op)).
    - apply (TileStore_in_Epilogue (block_size_ op)
               (dst_x (Compile_is1x1 op) flag)
               (dst_y (Compile_is1x1 op) flag) dst_tensor
               (linked_operations_ op) z y x Hx Hy Hz).
    - apply Epilogue_in_text. }
  split; [exact Hiff|]. split; [|split].
  - intros Hfail. destruct flag eqn:E; [|reflexivity].
    destruct Hiff as [Hiff _]. destruct (Hiff eq_refl) as (S' & P & A & St & Pr).
    destruct Hfail as [F|[F|[F|[F|F]]]]; congruence.
  - intros Hflag H1. split; [|split].
    + unfold Compile_fragments. fold flag. rewrite Hflag, H1.
      unfold GenerateConvCode_fragments.
      change (dst_x true true) with "xc0". change (dst_y true true) with "yc0".
      eexists.
      repeat
        match goal with
        | |- ?a ++ ?b ++ ?c = _ ++ Epilogue _ _ _ _ _ ++ _ =>
            first [ reflexivity | rewrite (app_assoc a b c) ]
        end.
    + intros z y x. eexists. reflexivity.
    + intros z y x Hx Hy Hz.
      assert (Hn : NeedStrideCorrection (definition_ op) (stride_ op) = false).
      { destruct Hiff as [Hiff _].
        destruct (Hiff Hflag) as (Hs & _). unfold NeedStrideCorrection.
        rewrite Hs. apply andb_false_r. }
      split; [|split].
      * specialize (Hstore z y x Hx Hy Hz). rewrite Hflag, H1 in Hstore.
        exact Hstore.
      * apply occurs_in_Compile_code.
        eapply occurs_in_trans; [|apply SourceCoordinates_in_text].
        unfold SourceCoordinates. rewrite Hn.
        apply occurs_in_app_l.
        apply occurs_in_flat_map with (a := 0);
          [apply in_upto; fold bx; lia | apply occurs_in_refl].
      * apply occurs_in_Compile_code.
        eapply occurs_in_trans; [|apply SourceCoordinates_in_text].
        unfold SourceCoordinates.
        apply occurs_in_app_r.
        apply occurs_in_flat_map with (a := 0);
          [apply in_upto; fold by'; lia | apply occurs_in_refl].
  - intros Hoff z y x Hx Hy Hz.
    specialize (Hstore z y x Hx Hy Hz).
    assert (E : Compile_is1x1 op && flag = false)
      by (destruct Hoff as [-> | ->];
          [apply andb_false_r | reflexivity]).
    unfold dst_x, dst_y in Hstore. rewrite E in Hstore. exact Hstore.
Qed.

Lemma adreno4xx_optimization_gating_sample :
  Compile_adreno4xx_optimization Sample.conv1x1_f16
    (Sample.context Sample.Adreno4xx) = true /\
  (exists before after : list Fragment,
     Compile_fragments Sample.conv1x1_f16 (Sample.context Sample.Adreno4xx) =
       before ++
       [ Lit ("    {" +:+ LF);
         Lit ("      int xc = xc0 + 3;" +:+ LF);
         Lit ("      int yc = yc0 + 2;" +:+ LF);
         Lit ("      if (xc < dst_size.x && yc < dst_size.y) {" +:+ LF);
         Lit ("        FLT4 res = TO_FLT4(r27) + bias_val;" +:+ LF);
         Ext ("        res += shift;" +:+ LF);
         Lit "        ";
         Ext "WRITE_IMAGE(dst_data, (int2)((xc), (yc) * dst_size.w + (Z)), res);";
         Lit LF;
         Lit ("      }" +:+ LF);
         Lit ("    }" +:+ LF) ] ++ after) /\
  exists before : list Fragment,
    Compile_fragments Sample.conv1x1_f16 (Sample.context Sample.Adreno4xx) =
      before ++
      Epilogue (Int3 4 4 2) "xc0" "yc0"
        {| tensor_name := "dst_data"; tensor_size_name := "dst_size";
           tensor_descriptor :=
             {| data_type := FLOAT32; storage_type := TEXTURE_ARRAY |} |}
        Sample.shift_by_7 ++
      [ Lit ("}" +:+ LF) ].
Proof.
  split; [reflexivity|].
  destruct (adreno4xx_optimization_gating (helpers := Sample.helpers)
              Sample.conv1x1_f16 (Sample.context Sample.Adreno4xx))
    as (_ & _ & H & _).
  destruct (H eq_refl eq_refl) as (He & _ & Hs).
  split; [|exact He].
  destruct (Hs 1 2 3) as ((before & after & E & _) & _); try (cbn; lia).
  exists before, after. exact E.
Defined.

(** With the flag set the stride is 1 and the padding 0, so whatever batch
    size scales the bound padding, the source coordinates [xc0] and [yc0]
    the kernel computes are the tile origin [X], [Y] themselves (the
    source's remark at line 246). *)
Lemma adreno4xx_optimization_coordinates `{helpers : Helpers}
  (op : ConvTexture) (creation_context : CreationContext) (X batch : Z) :
  Compile_adreno4xx_optimization op creation_context = true ->
  NeedStrideCorrection (definition_ op) (stride_ op) = false /\
  AffineSourceX X 0 (int2_x (stride_ op)) (int2_x (padding_ op) * batch) = X /\
  AffineSourceX X 0 (int2_y (stride_ op)) (int2_y (padding_ op)) = X.
Proof.
  intros H. apply Compile_adreno4xx_optimization_true in H.
  destruct H as (-> & -> & _). unfold NeedStrideCorrection, AffineSourceX.
  cbn. rewrite andb_false_r. repeat split; lia.
Qed.

(** ** Argument binding *)

Lemma return_if_error_ext (a rest rest' : CLKernel -> Status * CLKernel) :
  (forall k, rest k = rest' k) ->
  forall k, return_if_error a rest k = return_if_error a rest' k.
Proof.
  intros E k. unfold return_if_error.
  destruct (a k) as [[|msg] k']; [apply E | reflexivity].
Qed.

Lemma SetArgsAuto_cons (a : KernelArg) (l : list KernelArg)
  (rest : CLKernel -> Status * CLKernel) :
  (forall k, rest k = SetArgsAuto l k) ->
  forall k, return_if_error (SetArgAuto a) rest k = SetArgsAuto (a :: l) k.
Proof. intros E k. cbn [SetArgsAuto]. now apply return_if_error_ext. Qed.

Lemma SetArgsAuto_app (l1 l2 : list KernelArg)
  (rest : CLKernel -> Status * CLKernel) :
  (forall k, rest k = SetArgsAuto l2 k) ->
  forall k,
    return_if_error (SetArgsAuto l1) rest k = SetArgsAuto (l1 ++ l2) k.
Proof.
  intros E. induction l1 as [|a l1 IH]; intros k.
  - cbn. apply E.
  - cbn [SetArgsAuto app]. unfold return_if_error in *.
    destruct (SetArgAuto a k) as [[|msg] k1]; [apply IH | reflexivity].
Qed.

Lemma when_SetArgsAuto_app (b : bool) (l l2 : list KernelArg)
  (rest : CLKernel -> Status * CLKernel) :
  (forall k, rest k = SetArgsAuto l2 k) ->
  forall k,
    return_if_error (when b (SetArgsAuto l)) rest k =
    SetArgsAuto ((if b then l else []) ++ l2) k.
Proof.
  intros E. destruct b; cbn [when].
  - now apply SetArgsAuto_app.
  - intros k. apply E.
Qed.

(** [BindArguments] hands [BindArguments_arguments] to the setters, in that
    order, and stops at the first refusal. *)
Lemma BindArguments_body_eq `{helpers : Helpers} (op : ConvTexture)
  (k : CLKernel) :
  BindArguments_body op k = SetArgsAuto (BindArguments_arguments op) k.
Proof.
  unfold BindArguments_body, BindArguments_arguments, BindArguments_scalars,
    BindArgs, SetMemoryAuto, SetBytesAuto_int4, SetBytesAuto_int2,
    SetBytesAuto_int.
  cbn [app]. revert k.
  do 6 (apply SetArgsAuto_cons).
  apply SetArgsAuto_app.
  do 3 (apply SetArgsAuto_cons).
  do 2 match goal with
       | |- forall k, return_if_error (when ?b _) ?rest k =
                      SetArgsAuto ((if _ then ?l else []) ++ ?l2) k =>
           apply (when_SetArgsAuto_app b l l2 rest)
       end.
  reflexivity.
Qed.

Lemma with_counter_same (k : CLKernel) :
  with_counter (binding_counter_ k) k = k.
Proof. destruct k; reflexivity. Qed.

(** A run of the setters never touches the driver's verdicts nor the
    positions below the counter it started from. *)
Lemma SetArgsAuto_frame (l : list KernelArg) (k k' : CLKernel) (st : Status) :
  SetArgsAuto l k = (st, k') ->
  clSetKernelArg k' = clSetKernelArg k /\
  (binding_counter_ k <= binding_counter_ k')%nat /\
  forall i : nat, (i < binding_counter_ k)%nat ->
    bound_args_ k' !! i = bound_args_ k !! i.
Proof.
  revert k. induction l as [|a l IH]; intros k H.
  - inversion H; subst. auto.
  - cbn [SetArgsAuto] in H. unfold return_if_error, SetArgAuto in H.
    destruct (clSetKernelArg k (binding_counter_ k) a) eqn:E.
    + apply IH in H. cbn in H. destruct H as (Hf & Hc & Hb).
      split; [exact Hf|]. split; [lia|].
      intros i Hi. rewrite Hb by lia. apply lookup_insert_ne. lia.
    + inversion H; subst. auto.
Qed.

(** A successful run binds the whole list at consecutive positions. *)
Lemma SetArgsAuto_ok (l : list KernelArg) (k k' : CLKernel) :
  SetArgsAuto l k = (OkStatus, k') ->
  binding_counter_ k' = (binding_counter_ k + length l)%nat /\
  forall (j : nat) (a : KernelArg), l !! j = Some a ->
    bound_args_ k' !! (binding_counter_ k + j)%nat = Some a.
Proof.
  revert k. induction l as [|a l IH]; intros k H.
  - inversion H; subst. cbn. split; [lia|]. intros j b Hj. discriminate.
  - cbn [SetArgsAuto] in H. unfold return_if_error, SetArgAuto in H.
    destruct (clSetKernelArg k (binding_counter_ k) a) eqn:E;
      [|discriminate].
    pose proof (SetArgsAuto_frame _ _ _ _ H) as (_ & _ & Hb).
    apply IH in H. cbn in H. destruct H as (Hc & Hl).
    split; [cbn; lia|].
    intros [|j] b Hj.
    + cbn in Hj. inversion Hj; subst. rewrite Nat.add_0_r.
      rewrite (Hb (binding_counter_ k)) by (cbn; lia). cbn.
      apply lookup_insert_eq.
    + cbn in Hj. rewrite <- (Hl j b Hj). f_equal. lia.
Qed.

(** Running the same list again from the same position reproduces the
    status and the kernel. *)
Lemma SetArgsAuto_again (l : list KernelArg) (k k' : CLKernel) (st : Status) :
  SetArgsAuto l k = (st, k') ->
  SetArgsAuto l (with_counter (binding_counter_ k) k') = (st, k').
Proof.
  revert k. induction l as [|a l IH]; intros k H.
  - inversion H; subst. cbn. now rewrite with_counter_same.
  - pose proof (SetArgsAuto_frame _ _ _ _ H) as (Hf & _ & _).
    cbn [SetArgsAuto] in *. unfold return_if_error, SetArgAuto in *.
    cbn [with_counter clSetKernelArg binding_counter_ bound_args_].
    replace (clSetKernelArg k' (binding_counter_ k) a)
      with (clSetKernelArg k (binding_counter_ k) a) by now rewrite Hf.
    destruct (clSetKernelArg k (binding_counter_ k) a) eqn:E.
    + pose proof (SetArgsAuto_frame _ _ _ _ H) as (_ & _ & Hb).
      specialize (Hb (binding_counter_ k)). cbn in Hb.
      rewrite lookup_insert_eq in Hb.
      rewrite (insert_id (bound_args_ k')) by (apply Hb; lia).
      apply IH in H. exact H.
    + inversion H; subst. now rewrite with_counter_same.
Qed.

Lemma BindArguments_arguments_lookup `{helpers : Helpers} (op : ConvTexture) :
  let linked := LinkedArguments (linked_operations_ op) in
  (forall (j : nat) (a : KernelArg), linked !! j = Some a ->
     BindArguments_arguments op !! (6 + j)%nat = Some a) /\
  BindArguments_arguments op !! (6 + length linked)%nat =
    Some (ArgMem (GetMemoryPtrForWriting (dst_0 op))) /\
  (forall j : nat,
     BindArguments_arguments op !! (7 + length linked + j)%nat =
     BindArguments_scalars op !! j).
Proof.
  intros linked. unfold BindArguments_arguments. fold linked.
  cbn [app Nat.add]. 
  change ((forall (j : nat) (a : KernelArg), linked !! j = Some a ->
            (linked ++ ArgMem (GetMemoryPtrForWriting (dst_0 op)) ::
               BindArguments_scalars op) !! j = Some a) /\
         (linked ++ ArgMem (GetMemoryPtrForWriting (dst_0 op)) ::
            BindArguments_scalars op) !! length linked =
           Some (ArgMem (GetMemoryPtrForWriting (dst_0 op))) /\
         (forall j : nat,
            (linked ++ ArgMem (GetMemoryPtrForWriting (dst_0 op)) ::
               BindArguments_scalars op) !! S (length linked + j) =
            BindArguments_scalars op !! j)).
  split; [|split].
  - intros j a Hj. rewrite lookup_app_l; [exact Hj|].
    now apply lookup_lt_Some in Hj.
  - rewrite lookup_app_r by lia. now rewrite Nat.sub_diag.
  - intros j. rewrite lookup_app_r by lia.
    now replace (S (length linked + j) - length linked)%nat with (S j) by lia.
Qed.

(** A successful [BindArguments] leaves the operation as it was but for
    the kernel, whose counter stands after the last argument and whose
    positions hold [BindArguments_arguments]. *)
Lemma BindArguments_ok `{helpers : Helpers} (op op' : ConvTexture) :
  BindArguments op = (OkStatus, op') ->
  op' = set_kernel_ op (kernel_ op') /\
  binding_counter_ (kernel_ op') = length (BindArguments_arguments op) /\
  forall (j : nat) (a : KernelArg),
    BindArguments_arguments op !! j = Some a ->
    bound_args_ (kernel_ op') !! j = Some a.
Proof.
  unfold BindArguments. rewrite BindArguments_body_eq.
  destruct (SetArgsAuto (BindArguments_arguments op)
              (ResetBindingCounter (kernel_ op))) as [st k] eqn:E.
  intros H. inversion H; subst. cbn [kernel_ set_kernel_].
  apply SetArgsAuto_ok in E. cbn in E. destruct E as [Hc Hl].
  auto.
Qed.

(** C9.  Calling [BindArguments] a second time, on the operation the first
    call left, returns the same status and leaves the same operation: the
    counter, the binding positions and the bound values are those of the
    first call.  A call changes nothing but the kernel's counter and bound
    argument set. *)
Theorem BindArguments_idempotent `{helpers : Helpers} (op : ConvTexture) :
  BindArguments (snd (BindArguments op)) = BindArguments op /\
  bound_args_ (kernel_ (snd (BindArguments (snd (BindArguments op))))) =
    bound_args_ (kernel_ (snd (BindArguments op))) /\
  exists k : CLKernel,
    snd (BindArguments op) = set_kernel_ op k /\
    clSetKernelArg k = clSetKernelArg (kernel_ op).
Proof.
  assert (H1 : BindArguments (snd (BindArguments op)) = BindArguments op).
  { unfold BindArguments at 2 3. rewrite BindArguments_body_eq.
    destruct (SetArgsAuto (BindArguments_arguments op)
                (ResetBindingCounter (kernel_ op))) as [st k] eqn:E.
    cbn [snd]. unfold BindArguments. rewrite BindArguments_body_eq.
    change (BindArguments_arguments (set_kernel_ op k))
      with (BindArguments_arguments op).
    change (ResetBindingCounter (kernel_ (set_kernel_ op k)))
      with (with_counter
              (binding_counter_ (ResetBindingCounter (kernel_ op))) k).
    rewrite (SetArgsAuto_again _ _ _ _ E). reflexivity. }
  split; [exact H1|]. split; [now rewrite H1|].
  unfold BindArguments. rewrite BindArguments_body_eq.
  destruct (SetArgsAuto (BindArguments_arguments op)
              (ResetBindingCounter (kernel_ op))) as [st k] eqn:E.
  exists k. split; [reflexivity|].
  now apply SetArgsAuto_frame in E.
Qed.

(** C10.  Every call of [BindArguments] hands the setters the dilation as
    (dilation.x * batch, dilation.y) and the padding as
    (padding.x * batch, padding.y), with the batch of the source tensor,
    and the kernel size and the stride as they are stored; after a
    successful call these are the values at the parameters' positions. *)
Theorem BindArguments_scales_x_by_batch `{helpers : Helpers}
  (op : ConvTexture) :
  let batch := Batch (src_0 op) in
  let n := length (LinkedArguments (linked_operations_ op)) in
  let window := if Compile_is1x1 op then 0%nat else 2%nat in
  let correction :=
    if NeedStrideCorrection (definition_ op) (stride_ op)
    then 1%nat else 0%nat in
  let bound_dilation :=
    ArgInt2 (Int2 (int2_x (dilation_ op) * batch) (int2_y (dilation_ op))) in
  let bound_padding :=
    ArgInt2 (Int2 (int2_x (padding_ op) * batch) (int2_y (padding_ op))) in
  (forall k : CLKernel,
     BindArguments_body op k =
     SetArgsAuto
       ([ ArgMem (GetMemoryPtr (src_0 op)); ArgMem (weights_0_ op);
          ArgMem (weights_1_ op); ArgMem (weights_2_ op);
          ArgMem (weights_3_ op); ArgMem (biases_ op) ] ++
        LinkedArguments (linked_operations_ op) ++
        [ ArgMem (GetMemoryPtrForWriting (dst_0 op));
          ArgInt4 (BindArguments_src_size op);
          ArgInt4 (BindArguments_dst_size op) ] ++
        (if Compile_is1x1 op then []
         else [ ArgInt2 (kernel_size_ op); bound_dilation ]) ++
        (if NeedStrideCorrection (definition_ op) (stride_ op)
         then [ ArgInt (Batch (dst_0 op)) ] else []) ++
        [ ArgInt2 (stride_ op); bound_padding ]) k) /\
  (forall op' : ConvTexture,
     BindArguments op = (OkStatus, op') ->
     let bound := bound_args_ (kernel_ op') in
     (Compile_is1x1 op = false ->
      bound !! (9 + n)%nat = Some (ArgInt2 (kernel_size_ op)) /\
      bound !! (10 + n)%nat = Some bound_dilation) /\
     bound !! (9 + n + window + correction)%nat =
       Some (ArgInt2 (stride_ op)) /\
     bound !! (10 + n + window + correction)%nat = Some bound_padding).
Proof.
  intros batch n window correction bound_dilation bound_padding.
  split.
  - intros k. rewrite BindArguments_body_eq.
    unfold BindArguments_arguments, BindArguments_scalars, Compile_is1x1.
    destruct ((int2_x (kernel_size_ op) =? 1) &&
              (int2_y (kernel_size_ op) =? 1)); reflexivity.
  - intros op' H bound. apply BindArguments_ok in H.
    destruct H as (_ & _ & Hl).
    destruct (BindArguments_arguments_lookup op) as (_ & _ & Hs).
    fold n in Hs.
    assert (Hb : forall (j : nat) (a : KernelArg),
              BindArguments_scalars op !! j = Some a ->
              bound !! (7 + n + j)%nat = Some a).
    { intros j a Hj. apply Hl. now rewrite Hs. }
    subst window correction. unfold BindArguments_scalars in Hb.
    fold (Compile_is1x1 op) in Hb.
    split.
    + intros H1. rewrite H1 in Hb. split.
      * replace (9 + n)%nat with (7 + n + 2)%nat by lia. now apply Hb.
      * replace (10 + n)%nat with (7 + n + 3)%nat by lia. now apply Hb.
    + destruct (Compile_is1x1 op),
        (NeedStrideCorrection (definition_ op) (stride_ op));
        cbn [negb app] in Hb; split;
        match goal with
        | |- bound !! ?i = _ =>
            first [ replace i with (7 + n + 2)%nat by lia
                  | replace i with (7 + n + 3)%nat by lia
                  | replace i with (7 + n + 4)%nat by lia
                  | replace i with (7 + n + 5)%nat by lia
                  | replace i with (7 + n + 6)%nat by lia ];
            now apply Hb
        end.
Qed.


(** The sample operations bind all their arguments. *)
Lemma sample_BindArguments_ok :
  BindArguments Sample.conv3x3_batched =
    (OkStatus, snd (BindArguments Sample.conv3x3_batched)) /\
  BindArguments Sample.conv3x3 =
    (OkStatus, snd (BindArguments Sample.conv3x3)) /\
  BindArguments Sample.conv1x1_f16 =
    (OkStatus, snd (BindArguments Sample.conv1x1_f16)) /\
  BindArguments Sample.conv1x1_batched =
    (OkStatus, snd (BindArguments Sample.conv1x1_batched)) /\
  BindArguments Sample.conv3x3_batch3 =
    (OkStatus, snd (BindArguments Sample.conv3x3_batch3)).
Proof. vm_compute. repeat split. Qed.


Lemma BindArguments_scales_x_by_batch_sample :
  let bound :=
    bound_args_ (kernel_ (snd (BindArguments Sample.conv3x3_batch3))) in
  bound !! 10%nat = Some (ArgInt2 (Int2 3 3)) /\
  bound !! 11%nat = Some (ArgInt2 (Int2 6 2)) /\
  bound !! 13%nat = Some (ArgInt2 (Int2 2 2)) /\
  bound !! 14%nat = Some (ArgInt2 (Int2 (-3) (-1))).
Proof.
  destruct sample_BindArguments_ok as (_ & _ & _ & _ & B5).
  destruct (BindArguments_scales_x_by_batch (helpers := Sample.helpers)
              Sample.conv3x3_batch3) as [_ H].
  destruct (H _ B5) as (Hw & Hs & Hp).
  destruct (Hw eq_refl) as [Hk Hd].
  exact (conj Hk (conj Hd (conj Hs Hp))).
Defined.

(** The whole text generated for the sample 3x3 operation, helpers' text
    included: BATCH_SIZE does not occur, the bounds check occurs four times
    and each loop header once. *)
Example example_3x3_scenario_text :
  let code := Compile_code Sample.conv3x3 (Sample.context Sample.Mali) in
  occurrences "BATCH_SIZE" code = 0%nat /\
  occurrences "xc < dst_size.x && yc < dst_size.y" code = 4%nat /\
  occurrences "for (int y = 0; y < kernel_size.y; ++y) {" code = 1%nat /\
  occurrences "for (int x = 0; x < kernel_size.x; ++x) {" code = 1%nat.
Proof. vm_compute. auto. Qed.

(** ** Refused arguments *)

(** The setters succeed on a list exactly when the driver accepts every
    value at the position it lands on. *)
Lemma SetArgsAuto_status (l : list KernelArg) (k : CLKernel) :
  fst (SetArgsAuto l k) = OkStatus <->
  forall (j : nat) (a : KernelArg), l !! j = Some a ->
    clSetKernelArg k (binding_counter_ k + j)%nat a = true.
Proof.
  revert k. induction l as [|a l IH]; intros k.
  - cbn. split; [intros _ j b Hj; discriminate | reflexivity].
  - cbn [SetArgsAuto]. unfold return_if_error, SetArgAuto.
    destruct (clSetKernelArg k (binding_counter_ k) a) eqn:E.
    + rewrite IH. cbn [clSetKernelArg binding_counter_]. split.
      * intros H [|j] b Hj.
        -- cbn in Hj. inversion Hj; subst. now rewrite Nat.add_0_r.
        -- cbn in Hj. rewrite <- (H j b Hj). f_equal. lia.
      * intros H j b Hj. rewrite <- (H (S j) b Hj). f_equal. lia.
    + cbn. split; [discriminate|].
      intros H. specialize (H 0%nat a eq_refl).
      rewrite Nat.add_0_r in H. congruence.
Qed.

(** When the driver accepts the first [i] values and refuses the next, the
    setters stop there: the counter stands at the refused position, the
    accepted values are bound, every other position is as before. *)
Lemma SetArgsAuto_refused (l : list KernelArg) (k : CLKernel) (i : nat)
  (a : KernelArg) :
  l !! i = Some a ->
  (forall (j : nat) (b : KernelArg), (j < i)%nat -> l !! j = Some b ->
     clSetKernelArg k (binding_counter_ k + j)%nat b = true) ->
  clSetKernelArg k (binding_counter_ k + i)%nat a = false ->
  exists k' : CLKernel,
    SetArgsAuto l k = (UnknownError "Failed to set kernel arguments", k') /\
    binding_counter_ k' = (binding_counter_ k + i)%nat /\
    clSetKernelArg k' = clSetKernelArg k /\
    (forall (j : nat) (b : KernelArg), (j < i)%nat -> l !! j = Some b ->
       bound_args_ k' !! (binding_counter_ k + j)%nat = Some b) /\
    (forall pos : nat,
       (pos < binding_counter_ k)%nat \/ (binding_counter_ k + i <= pos)%nat ->
       bound_args_ k' !! pos = bound_args_ k !! pos).
Proof.
  revert k i. induction l as [|a0 l IH]; intros k i Hi Hacc Hrej.
  - discriminate.
  - destruct i as [|i].
    + cbn in Hi. inversion Hi; subst a0. rewrite Nat.add_0_r in Hrej.
      exists k. cbn [SetArgsAuto]. unfold return_if_error, SetArgAuto.
      rewrite Hrej.
      split; [reflexivity|]. split; [lia|]. split; [reflexivity|].
      split; [intros j b Hj; lia | reflexivity].
    + cbn in Hi.
      pose proof (Hacc 0%nat a0 ltac:(lia) eq_refl) as H0.
      rewrite Nat.add_0_r in H0.
      cbn [SetArgsAuto]. unfold return_if_error at 1. unfold SetArgAuto at 1.
      rewrite H0.
      set (k1 := {| clSetKernelArg := clSetKernelArg k;
                    binding_counter_ := S (binding_counter_ k);
                    bound_args_ := <[binding_counter_ k := a0]> (bound_args_ k) |}).
      destruct (IH k1 i Hi) as (k' & Hrun & Hc & Hf & Hb & Ho).
      * intros j b Hj Hl. cbn.
        match goal with
        | |- clSetKernelArg _ ?n _ = _ =>
            replace n with (binding_counter_ k + S j)%nat by lia
        end.
        apply Hacc; [lia | exact Hl].
      * cbn.
        match goal with
        | |- clSetKernelArg _ ?n _ = _ =>
            replace n with (binding_counter_ k + S i)%nat by lia
        end.
        exact Hrej.
      * exists k'. cbn in Hc, Hf, Hb, Ho.
        split; [exact Hrun|]. split; [lia|]. split; [exact Hf|]. split.
        -- intros [|j] b Hj Hl.
           ++ cbn in Hl. inversion Hl; subst b. rewrite Nat.add_0_r.
              rewrite Ho by lia. apply lookup_insert_eq.
           ++ cbn in Hl.
              replace (binding_counter_ k + S j)%nat
                with (S (binding_counter_ k + j))%nat by lia.
              apply Hb; [lia | exact Hl].
        -- intros pos Hpos. rewrite Ho by lia.
           apply lookup_insert_ne. lia.
Qed.

(** X1.  [BindArguments] returns OK exactly when the driver accepts every
    value of its argument list at the position it is bound to, counted
    from 0. *)
Theorem BindArguments_ok_iff_accepted `{helpers : Helpers} (op : ConvTexture) :
  fst (BindArguments op) = OkStatus <->
  forall (j : nat) (a : KernelArg),
    BindArguments_arguments op !! j = Some a ->
    clSetKernelArg (kernel_ op) j a = true.
Proof.
  unfold BindArguments. rewrite BindArguments_body_eq.
  pose proof (SetArgsAuto_status (BindArguments_arguments op)
                (ResetBindingCounter (kernel_ op))) as H.
  destruct (SetArgsAuto (BindArguments_arguments op)
              (ResetBindingCounter (kernel_ op))) as [st k].
  exact H.
Qed.

(** X2.  When the driver accepts the first [i] values and refuses the value
    at position [i], [BindArguments] returns an error at once: the counter
    stands at [i], positions below [i] hold the accepted values, positions
    from [i] on hold what they held before the call, and nothing but the
    kernel has changed. *)
Theorem BindArguments_stops_at_refusal `{helpers : Helpers}
  (op : ConvTexture) (i : nat) (a : KernelArg) :
  BindArguments_arguments op !! i = Some a ->
  (forall (j : nat) (b : KernelArg), (j < i)%nat ->
     BindArguments_arguments op !! j = Some b ->
     clSetKernelArg (kernel_ op) j b = true) ->
  clSetKernelArg (kernel_ op) i a = false ->
  exists k' : CLKernel,
    BindArguments op =
      (UnknownError "Failed to set kernel arguments", set_kernel_ op k') /\
    binding_counter_ k' = i /\
    (forall (j : nat) (b : KernelArg), (j < i)%nat ->
       BindArguments_arguments op !! j = Some b ->
       bound_args_ k' !! j = Some b) /\
    (forall pos : nat, (i <= pos)%nat ->
       bound_args_ k' !! pos = bound_args_ (kernel_ op) !! pos).
Proof.
  intros Hi Hacc Hrej.
  destruct (SetArgsAuto_refused (BindArguments_arguments op)
              (ResetBindingCounter (kernel_ op)) i a Hi Hacc Hrej)
    as (k' & Hrun & Hc & _ & Hb & Ho).
  exists k'. unfold BindArguments. rewrite BindArguments_body_eq, Hrun.
  split; [reflexivity|]. split; [exact Hc|]. split; [exact Hb|].
  intros pos Hpos. apply Ho. cbn. lia.
Qed.

Lemma BindArguments_stops_at_refusal_sample :
  exists k' : CLKernel,
    BindArguments (set_kernel_ Sample.conv3x3 SampleDispatch.twelve_parameters) =
      (UnknownError "Failed to set kernel arguments",
       set_kernel_ Sample.conv3x3 k') /\
    binding_counter_ k' = 12%nat /\
    bound_args_ k' !! 11%nat = Some (ArgInt2 (Int2 1 1)) /\
    bound_args_ k' !! 12%nat = None.
Proof.
  destruct (BindArguments_stops_at_refusal (helpers := Sample.helpers)
              (set_kernel_ Sample.conv3x3 SampleDispatch.twelve_parameters)
              12%nat (ArgInt2 (Int2 1 1)))
    as (k' & Hrun & Hc & Hb & Ho).
  - reflexivity.
  - intros j b Hj _. apply Nat.ltb_lt. exact Hj.
  - reflexivity.
  - exists k'. split; [exact Hrun|]. split; [exact Hc|]. split.
    + apply Hb; [lia | reflexivity].
    + rewrite Ho by lia. reflexivity.
Defined.

(** ** Tuning and dispatch *)

(** A second [BindArguments] on the operation a first one left reproduces
    its outcome. *)
Lemma BindArguments_again `{helpers : Helpers} (op op1 : ConvTexture)
  (st : Status) :
  BindArguments op = (st, op1) -> BindArguments op1 = (st, op1).
Proof.
  unfold BindArguments. rewrite !BindArguments_body_eq.
  destruct (SetArgsAuto (BindArguments_arguments op)
              (ResetBindingCounter (kernel_ op))) as [st0 k] eqn:E.
  intros H. inversion H; subst st0 op1. clear H.
  change (BindArguments_arguments (set_kernel_ op k))
    with (BindArguments_arguments op).
  change (ResetBindingCounter (kernel_ (set_kernel_ op k)))
    with (with_counter
            (binding_counter_ (ResetBindingCounter (kernel_ op))) k).
  now rewrite (SetArgsAuto_again _ _ _ _ E).
Qed.

(** The work-group size is not read by [BindArguments]. *)
Lemma BindArguments_work_group_size `{helpers : Helpers}
  (op : ConvTexture) (w : int3) :
  BindArguments (set_work_group_size_ op w) =
  (fst (BindArguments op), set_work_group_size_ (snd (BindArguments op)) w).
Proof.
  unfold BindArguments. rewrite !BindArguments_body_eq.
  change (BindArguments_arguments (set_work_group_size_ op w))
    with (BindArguments_arguments op).
  change (kernel_ (set_work_group_size_ op w)) with (kernel_ op).
  destruct (SetArgsAuto (BindArguments_arguments op)
              (ResetBindingCounter (kernel_ op))) as [st k].
  reflexivity.
Qed.

Lemma BindArguments_keeps `{helpers : Helpers} (op op1 : ConvTexture)
  (st : Status) :
  BindArguments op = (st, op1) ->
  GetGridSize op1 = GetGridSize op /\
  work_group_size_ op1 = work_group_size_ op.
Proof.
  unfold BindArguments.
  destruct (BindArguments_body op (ResetBindingCounter (kernel_ op)))
    as [st0 k].
  intros H. inversion H; subst. split; reflexivity.
Qed.

(** X3.  [AddToQueue] submits nothing when binding fails: it returns the
    binding error and the queue as it was.  When binding succeeds it submits
    one dispatch, of the kernel with every argument of the list bound from
    position 0 on, over the grid [GetGridSize] and with the work-group size
    the operation had before the call. *)
Theorem AddToQueue_binds_then_dispatches `{helpers : Helpers}
  `{dispatch : DispatchHelpers} (op : ConvTexture) (queue : CLCommandQueue) :
  (fst (BindArguments op) <> OkStatus ->
   AddToQueue op queue =
     (fst (BindArguments op), snd (BindArguments op), queue)) /\
  (forall op1 : ConvTexture, BindArguments op = (OkStatus, op1) ->
   AddToQueue op queue =
     (fst (DispatchImplicit queue (kernel_ op1) (GetGridSize op)
             (work_group_size_ op)),
      op1,
      snd (DispatchImplicit queue (kernel_ op1) (GetGridSize op)
             (work_group_size_ op))) /\
   binding_counter_ (kernel_ op1) = length (BindArguments_arguments op) /\
   forall (j : nat) (a : KernelArg),
     BindArguments_arguments op !! j = Some a ->
     bound_args_ (kernel_ op1) !! j = Some a).
Proof.
  split.
  - unfold AddToQueue. destruct (BindArguments op) as [[|msg] op1]; cbn.
    + intros H. now contradiction H.
    + reflexivity.
  - intros op1 H. destruct (BindArguments_keeps _ _ _ H) as [Hg Hw].
    destruct (BindArguments_ok _ _ H) as (_ & Hc & Hl).
    unfold AddToQueue. rewrite H, Hg, Hw.
    destruct (DispatchImplicit queue (kernel_ op1) (GetGridSize op)
                (work_group_size_ op)) as [st q].
    auto.
Qed.

(** X4.  [Tune] returns the binding error, and leaves the work-group size
    alone, when binding fails.  When binding succeeds, whatever the tuner
    answers, the operation differs from the bound one only by the
    work-group size the tuner left, and a following [AddToQueue] dispatches
    the same bound kernel over the same grid with that size. *)
Theorem Tune_changes_only_work_group_size `{helpers : Helpers}
  `{dispatch : DispatchHelpers} (op : ConvTexture)
  (params : TuningParameters) (queue : CLCommandQueue) :
  (fst (BindArguments op) <> OkStatus ->
   Tune op params = BindArguments op /\
   work_group_size_ (snd (Tune op params)) = work_group_size_ op) /\
  (forall op1 : ConvTexture, BindArguments op = (OkStatus, op1) ->
   let tuned :=
     GetBestWorkGroupConv params (kernel_ op1) (GetGridSize op)
                          (work_group_size_ op) in
   Tune op params = (fst tuned, set_work_group_size_ op1 (snd tuned)) /\
   AddToQueue (snd (Tune op params)) queue =
     (fst (DispatchImplicit queue (kernel_ op1) (GetGridSize op) (snd tuned)),
      set_work_group_size_ op1 (snd tuned),
      snd (DispatchImplicit queue (kernel_ op1) (GetGridSize op)
             (snd tuned)))).
Proof.
  split.
  - intros Hfail. unfold Tune.
    destruct (BindArguments op) as [[|msg] op1] eqn:E; cbn in *.
    + now contradiction Hfail.
    + split; [reflexivity|]. now destruct (BindArguments_keeps _ _ _ E).
  - intros op1 H tuned. destruct (BindArguments_keeps _ _ _ H) as [Hg Hw].
    assert (HT : Tune op params =
                 (fst tuned, set_work_group_size_ op1 (snd tuned))).
    { unfold Tune. rewrite H, Hg, Hw. fold tuned. now destruct tuned. }
    split; [exact HT|]. rewrite HT. cbn [snd].
    unfold AddToQueue. rewrite BindArguments_work_group_size.
    rewrite (BindArguments_again _ _ _ H). cbn [fst snd].
    change (kernel_ (set_work_group_size_ op1 (snd tuned))) with (kernel_ op1).
    change (GetGridSize (set_work_group_size_ op1 (snd tuned)))
      with (GetGridSize op1).
    change (work_group_size_ (set_work_group_size_ op1 (snd tuned)))
      with (snd tuned).
    rewrite Hg.
    now destruct (DispatchImplicit queue (kernel_ op1) (GetGridSize op)
                    (snd tuned)).
Qed.

Lemma AddToQueue_binds_then_dispatches_sample :
  AddToQueue (dispatch := SampleDispatch.dispatch) Sample.conv3x3 [] =
    (OkStatus, snd (BindArguments Sample.conv3x3),
     [(14%nat, Int3 9 5 5, Int3 4 4 2)]).
Proof.
  destruct sample_BindArguments_ok as (_ & B2 & _).
  destruct (AddToQueue_binds_then_dispatches (helpers := Sample.helpers)
              (dispatch := SampleDispatch.dispatch) Sample.conv3x3 [])
    as [_ H].
  destruct (H _ B2) as (Hq & _). rewrite Hq. vm_compute. reflexivity.
Defined.

Lemma Tune_changes_only_work_group_size_sample :
  fst (Tune (dispatch := SampleDispatch.dispatch) Sample.conv3x3 tt) =
    OkStatus /\
  work_group_size_
    (snd (Tune (dispatch := SampleDispatch.dispatch) Sample.conv3x3 tt)) =
    Int3 8 4 1 /\
  snd (AddToQueue (dispatch := SampleDispatch.dispatch)
         (snd (Tune (dispatch := SampleDispatch.dispatch) Sample.conv3x3 tt))
         []) =
    [(14%nat, Int3 9 5 5, Int3 8 4 1)].
Proof.
  destruct sample_BindArguments_ok as (_ & B2 & _).
  destruct (Tune_changes_only_work_group_size (helpers := Sample.helpers)
              (dispatch := SampleDispatch.dispatch) Sample.conv3x3 tt [])
    as [_ H].
  destruct (H _ B2) as (HT & HA). rewrite HA, HT.
  vm_compute. auto.
Defined.

(** ** What is compiled into the text and what is bound at run time *)

(** X5.  Two operations with the same definition, block size and linked
    operations generate the same text as soon as they agree on three
    booleans: whether the window is 1x1, whether stride.x is 1, and (for a
    1x1 window only) the vendor flag.  The window, stride, padding and
    dilation values, the tensors, the weights and the kernel do not enter
    the text.  The compiler options agree too, so [Compile] asks the
    program cache for the same program and gets the same status, kernel and
    cache. *)
Theorem Compile_code_shared `{helpers : Helpers} (op op' : ConvTexture)
  (creation_context : CreationContext) :
  definition_ op = definition_ op' ->
  block_size_ op = block_size_ op' ->
  linked_operations_ op = linked_operations_ op' ->
  Compile_is1x1 op = Compile_is1x1 op' ->
  (int2_x (stride_ op) =? 1) = (int2_x (stride_ op') =? 1) ->
  (Compile_is1x1 op = true ->
   Compile_adreno4xx_optimization op creation_context =
   Compile_adreno4xx_optimization op' creation_context) ->
  Compile_code op creation_context = Compile_code op' creation_context /\
  Compile_options op creation_context =
    Compile_options op' creation_context /\
  fst (fst (Compile op creation_context)) =
    fst (fst (Compile op' creation_context)) /\
  kernel_ (snd (fst (Compile op creation_context))) =
    kernel_ (snd (fst (Compile op' creation_context))) /\
  snd (Compile op creation_context) = snd (Compile op' creation_context).
Proof.
  intros Hd Hb Hl H1 Hs Ha.
  assert (E : Compile_code op creation_context =
              Compile_code op' creation_context).
  { unfold Compile_code, GenerateConvCode. rewrite <- Hb, <- Hl, <- H1.
    f_equal. apply GenerateConvCode_fragments_reads.
    - now rewrite Hd.
    - now rewrite Hd.
    - now rewrite Hd.
    - unfold NeedStrideCorrection. now rewrite Hd, Hs.
    - destruct (Compile_is1x1 op); [cbn; now apply Ha | reflexivity].
    - reflexivity. }
  assert (O : Compile_options op creation_context =
              Compile_options op' creation_context).
  { unfold Compile_options. now rewrite Hd, H1. }
  split; [exact E|]. split; [exact O|].
  unfold Compile. rewrite E, O.
  now destruct (GetOrCreateCLKernel (cache creation_context)
                  (Compile_code op' creation_context) "main_function"
                  (Compile_options op' creation_context)
                  (device creation_context)) as [[st k] c].
Qed.

Lemma Compile_code_shared_sample :
  Compile_code Sample.conv3x3_batched (Sample.context Sample.Mali) =
  Compile_code Sample.conv3x3_batch3 (Sample.context Sample.Mali).
Proof.
  apply (Compile_code_shared (helpers := Sample.helpers)
           Sample.conv3x3_batched Sample.conv3x3_batch3
           (Sample.context Sample.Mali));
    reflexivity || discriminate.
Defined.

(** ** Loop ranges *)

















(** ** Source values *)





(** ** One tile element through the kernel *)




(** ** Source coordinates from the bound values *)

(** The variables of [kernel_values] are the members of the values
    [BindArguments] hands to the setters under the parameters' names. *)
Lemma kernel_values_bound `{helpers : Helpers} (op : ConvTexture) (X Y : Z) :
  scalar_argument op "BATCH_SIZE" =
    option_map ArgInt (kernel_values op X Y !! "BATCH_SIZE") /\
  (exists sx sy, kernel_values op X Y !! "stride.x" = Some sx /\
                 kernel_values op X Y !! "stride.y" = Some sy /\
                 scalar_argument op "stride" = Some (ArgInt2 (Int2 sx sy))) /\
  (exists px py, kernel_values op X Y !! "padding.x" = Some px /\
                 kernel_values op X Y !! "padding.y" = Some py /\
                 scalar_argument op "padding" = Some (ArgInt2 (Int2 px py))).
Proof.
  split; [reflexivity|]. split.
  - exists (int2_x (stride_ op)), (int2_y (stride_ op)).
    repeat split. cbn. now destruct (stride_ op).
  - exists (int2_x (padding_ op) * Batch (src_0 op)), (int2_y (padding_ op)).
    repeat split.
Qed.

Section MeaningY.

#[local] Arguments String.append !_ _ : simpl nomatch.



End MeaningY.






(** ** Brackets *)

Lemma bracket_depth_app (o c : ascii) (s t : string) :
  bracket_depth o c (s +:+ t) = bracket_depth o c s + bracket_depth o c t.
Proof.
  induction s as [|a s IH]; [reflexivity|].
  change (String a s +:+ t) with (String a (s +:+ t)).
  cbn [bracket_depth]. rewrite IH. lia.
Qed.

Lemma nesting_app (o c : ascii) (fs gs : list Fragment) :
  nesting o c (fs ++ gs) = nesting o c fs + nesting o c gs.
Proof.
  induction fs as [|[s|e] fs IH]; cbn [nesting app]; rewrite ?IH; lia.
Qed.

Lemma nesting_flat_map_zero {A : Type} (o c : ascii)
  (f : A -> list Fragment) (l : list A) :
  (forall a, nesting o c (f a) = 0) -> nesting o c (flat_map f l) = 0.
Proof.
  intros H. induction l as [|a l IH]; [reflexivity|].
  cbn [flat_map]. rewrite nesting_app, H, IH. reflexivity.
Qed.

Lemma nesting_map_zero {A : Type} (o c : ascii) (f : A -> Fragment)
  (l : list A) :
  (forall a, nesting o c [f a] = 0) -> nesting o c (map f l) = 0.
Proof.
  intros H. induction l as [|a l IH]; [reflexivity|].
  change (map f (a :: l)) with ([f a] ++ map f l).
  rewrite nesting_app, H, IH. reflexivity.
Qed.

(** Decimal numerals hold no bracket. *)
Lemma to_string_brackets (z : Z) :
  bracket_depth "{" "}" (to_string z) = 0 /\
  bracket_depth "(" ")" (to_string z) = 0.
Proof.
  assert (H : forall d, bracket_depth "{" "}" (NilEmpty.string_of_uint d) = 0 /\
                        bracket_depth "(" ")" (NilEmpty.string_of_uint d) = 0).
  { induction d as [|d [IH1 IH2]|d [IH1 IH2]|d [IH1 IH2]|d [IH1 IH2]
                    |d [IH1 IH2]|d [IH1 IH2]|d [IH1 IH2]|d [IH1 IH2]
                    |d [IH1 IH2]|d [IH1 IH2]];
      cbn; rewrite ?IH1, ?IH2; split; reflexivity. }
  assert (H0 : forall d, bracket_depth "{" "}" (NilZero.string_of_uint d) = 0 /\
                         bracket_depth "(" ")" (NilZero.string_of_uint d) = 0).
  { intros d. destruct d; try apply H. split; reflexivity. }
  unfold to_string. destruct z as [|p|p].
  - split; reflexivity.
  - apply (H0 (Pos.to_uint p)).
  - change (NilZero.string_of_int (Z.to_int (Z.neg p)))
      with (String "-" (NilZero.string_of_uint (Pos.to_uint p))).
    destruct (H0 (Pos.to_uint p)) as [H1 H2].
    cbn [bracket_depth]. rewrite H1, H2. split; reflexivity.
Qed.

Lemma to_string_braces (z : Z) : bracket_depth "{" "}" (to_string z) = 0.
Proof. apply to_string_brackets. Qed.

Lemma to_string_parentheses (z : Z) :
  bracket_depth "(" ")" (to_string z) = 0.
Proof. apply to_string_brackets. Qed.

Ltac nest :=
  cbv beta zeta;
  repeat first
    [ rewrite nesting_app
    | rewrite nesting_flat_map_zero by (intros; nest)
    | rewrite nesting_map_zero by (intros; nest)
    | progress cbn [nesting] ];
  rewrite ?bracket_depth_app, ?to_string_braces, ?to_string_parentheses;
  reflexivity.

Section Brackets.

Context {helpers : Helpers}.

Lemma ConvMacros_nesting (p : CalculationsPrecision) (block_size : int3) :
  nesting "{" "}" (ConvMacros p block_size) = 0 /\
  nesting "(" ")" (ConvMacros p block_size) = 0.
Proof. unfold ConvMacros, ConvMacro. destruct p; split; nest. Qed.

Lemma KernelSignature_nesting (op_def : OperationDef) (is1x1 : bool)
  (stride : int2) (src_tensor dst_tensor : TensorCodeGenerator)
  (linked_operations : list ElementwiseOperation) :
  nesting "{" "}" (KernelSignature op_def is1x1 stride src_tensor dst_tensor
                     linked_operations) = 1 /\
  nesting "(" ")" (KernelSignature op_def is1x1 stride src_tensor dst_tensor
                     linked_operations) = 0.
Proof.
  unfold KernelSignature, SizeAndWindowParameters.
  destruct (NeedStrideCorrection op_def stride), is1x1;
    cbn [negb map app]; split; nest.
Qed.

Lemma TileOrigin_nesting (block_size : int3) :
  nesting "{" "}" (TileOrigin block_size) = 0 /\
  nesting "(" ")" (TileOrigin block_size) = 0.
Proof. unfold TileOrigin. split; nest. Qed.

Lemma SourceCoordinates_nesting (op_def : OperationDef) (block_size : int3)
  (stride : int2) :
  nesting "{" "}" (SourceCoordinates op_def block_size stride) = 0 /\
  nesting "(" ")" (SourceCoordinates op_def block_size stride) = 0.
Proof.
  unfold SourceCoordinates, SourceXCoordinate, SourceYCoordinate.
  destruct (NeedStrideCorrection op_def stride); split; nest.
Qed.

Lemma Accumulators_nesting (block_size : int3) :
  nesting "{" "}" (Accumulators block_size) = 0 /\
  nesting "(" ")" (Accumulators block_size) = 0.
Proof. unfold Accumulators. split; nest. Qed.

Lemma WindowLoops_nesting (block_size : int3) (is1x1 is_image_buffer : bool) :
  nesting "{" "}" (WindowLoops block_size is1x1 is_image_buffer) =
    (if is1x1 then 0 else 2) /\
  nesting "(" ")" (WindowLoops block_size is1x1 is_image_buffer) = 0.
Proof.
  unfold WindowLoops, ImageBufferAddresses, ImageBufferAddress.
  destruct is1x1, is_image_buffer; cbn [negb]; split; nest.
Qed.

Lemma ReductionLoop_nesting (block_size : int3) (is1x1 is_image_buffer : bool)
  (device : CLDevice) (src_tensor : TensorCodeGenerator) :
  nesting "{" "}" (ReductionLoop block_size is1x1 is_image_buffer device
                     src_tensor) = 0 /\
  nesting "(" ")" (ReductionLoop block_size is1x1 is_image_buffer device
                     src_tensor) = 0.
Proof.
  unfold ReductionLoop, FilterReads.
  destruct is1x1, is_image_buffer; cbn [negb]; split; nest.
Qed.

Lemma WindowLoopsEnd_nesting (is1x1 : bool) :
  nesting "{" "}" (WindowLoopsEnd is1x1) = (if is1x1 then 0 else -2) /\
  nesting "(" ")" (WindowLoopsEnd is1x1) = 0.
Proof. destruct is1x1; split; reflexivity. Qed.

Lemma Epilogue_nesting (block_size : int3)
  (is1x1 adreno4xx_optimization : bool) (dst_tensor : TensorCodeGenerator)
  (linked_operations : list ElementwiseOperation) :
  nesting "{" "}" (Epilogue block_size (dst_x is1x1 adreno4xx_optimization)
                     (dst_y is1x1 adreno4xx_optimization) dst_tensor
                     linked_operations) = 0 /\
  nesting "(" ")" (Epilogue block_size (dst_x is1x1 adreno4xx_optimization)
                     (dst_y is1x1 adreno4xx_optimization) dst_tensor
                     linked_operations) = 0.
Proof.
  unfold Epilogue, EpilogueSlice, TileStore, BoundsCheck, dst_x, dst_y.
  destruct (is1x1 && adreno4xx_optimization); split; nest.
Qed.

End Brackets.

(** X11.  In every configuration the text the generator itself writes
    closes as many braces as it opens, and as many parentheses: no loop,
    condition or block of the kernel is left open, whatever the window, the
    storage, the precision, the stride correction and the block. *)
Theorem GenerateConvCode_brackets_balanced `{helpers : Helpers}
  (op_def : OperationDef) (block_size : int3)
  (is1x1 adreno4xx_optimization : bool) (stride : int2) (device : CLDevice)
  (linked_operations : list ElementwiseOperation) :
  nesting "{" "}"
    (GenerateConvCode_fragments op_def block_size is1x1
       adreno4xx_optimization stride device linked_operations) = 0 /\
  nesting "(" ")"
    (GenerateConvCode_fragments op_def block_size is1x1
       adreno4xx_optimization stride device linked_operations) = 0.
Proof.
  unfold GenerateConvCode_fragments. cbv zeta.
  rewrite !nesting_app.
  split.
  - rewrite (proj1 (ConvMacros_nesting _ _)),
      (proj1 (KernelSignature_nesting _ _ _ _ _ _)),
      (proj1 (TileOrigin_nesting _)),
      (proj1 (SourceCoordinates_nesting _ _ _)),
      (proj1 (Accumulators_nesting _)),
      (proj1 (WindowLoops_nesting _ _ _)),
      (proj1 (ReductionLoop_nesting _ _ _ _ _)),
      (proj1 (WindowLoopsEnd_nesting _)),
      (proj1 (Epilogue_nesting _ _ _ _ _)).
    destruct is1x1; reflexivity.
  - rewrite (proj2 (ConvMacros_nesting _ _)),
      (proj2 (KernelSignature_nesting _ _ _ _ _ _)),
      (proj2 (TileOrigin_nesting _)),
      (proj2 (SourceCoordinates_nesting _ _ _)),
      (proj2 (Accumulators_nesting _)),
      (proj2 (WindowLoops_nesting _ _ _)),
      (proj2 (ReductionLoop_nesting _ _ _ _ _)),
      (proj2 (WindowLoopsEnd_nesting _)),
      (proj2 (Epilogue_nesting _ _ _ _ _)).
    reflexivity.
Qed.

(** ** Parameters the text may read *)

Lemma contains_cons (n : string) (c : ascii) (t : string) :
  contains n (String c t) = String.prefix n (String c t) || contains n t.
Proof.
  unfold contains. cbn [index].
  destruct (String.prefix n (String c t)); [reflexivity|].
  now destruct (index 0 n t).
Qed.

Lemma contains_empty (n : string) :
  plain_name n = true -> contains n EmptyString = false.
Proof. destruct n; [discriminate | reflexivity]. Qed.

Lemma prefix_past_numeral (n u : string) (c : ascii) (t : string) :
  all_chars (fun a => negb (is_numeric a)) n = true ->
  is_numeric c = true ->
  String.prefix n (u +:+ String c t) = String.prefix n u.
Proof.
  revert u. induction n as [|a n IH]; intros u Hn Hc;
    [destruct u; reflexivity|].
  cbn [all_chars] in Hn. apply andb_true_iff in Hn as [Ha Hn].
  destruct u as [|b u].
  - change (EmptyString +:+ String c t) with (String c t).
    cbn [String.prefix]. destruct (ascii_dec a c) as [->|_]; [|reflexivity].
    rewrite Hc in Ha. discriminate.
  - change (String b u +:+ String c t) with (String b (u +:+ String c t)).
    cbn [String.prefix]. destruct (ascii_dec a b); [|reflexivity].
    now apply IH.
Qed.

Lemma contains_before_numeral (n s : string) (c : ascii) (t : string) :
  plain_name n = true -> is_numeric c = true ->
  contains n (s +:+ String c t) = contains n s || contains n (String c t).
Proof.
  intros Hn Hc.
  assert (Hall : all_chars (fun a => negb (is_numeric a)) n = true)
    by (destruct n; [discriminate | exact Hn]).
  induction s as [|b s IH].
  - change (EmptyString +:+ String c t) with (String c t).
    now rewrite contains_empty.
  - change (String b s +:+ String c t) with (String b (s +:+ String c t)).
    rewrite (contains_cons n b (s +:+ String c t)), (contains_cons n b s).
    change (String b (s +:+ String c t)) with (String b s +:+ String c t).
    rewrite prefix_past_numeral, IH by assumption.
    now rewrite orb_assoc.
Qed.

Lemma contains_numeral_head (n d rest : string) :
  plain_name n = true -> all_chars is_numeric d = true ->
  contains n (d +:+ rest) = contains n rest.
Proof.
  intros Hn. induction d as [|c d IH]; intros Hd; [reflexivity|].
  cbn [all_chars] in Hd. apply andb_true_iff in Hd as [Hc Hd].
  change (String c d +:+ rest) with (String c (d +:+ rest)).
  rewrite contains_cons, IH by assumption.
  destruct n as [|a n]; [discriminate|].
  cbn [plain_name all_chars] in Hn. apply andb_true_iff in Hn as [Ha _].
  cbn [String.prefix]. destruct (ascii_dec a c) as [->|_]; [|reflexivity].
  rewrite Hc in Ha. discriminate.
Qed.

Lemma to_string_numeric (z : Z) :
  all_chars is_numeric (to_string z) = true /\
  exists c s, to_string z = String c s /\ is_numeric c = true.
Proof.
  assert (H : forall u, all_chars is_numeric (NilEmpty.string_of_uint u) = true)
    by (induction u; cbn; auto).
  assert (H0 : forall u,
            all_chars is_numeric (NilZero.string_of_uint u) = true /\
            exists c s, NilZero.string_of_uint u = String c s /\
                        is_numeric c = true).
  { intros u. split; [destruct u; try apply H; reflexivity|].
    destruct u; cbn; eauto. }
  unfold to_string. destruct z as [|p|p].
  - split; [reflexivity|]. cbn. eauto.
  - apply (H0 (Pos.to_uint p)).
  - change (NilZero.string_of_int (Z.to_int (Z.neg p)))
      with (String "-" (NilZero.string_of_uint (Pos.to_uint p))).
    split; [|eauto]. cbn [all_chars].
    now rewrite (proj1 (H0 (Pos.to_uint p))).
Qed.

(** A name is in a text around a numeral only if it is before or after
    it. *)
Lemma contains_numeral (n s : string) (z : Z) (rest : string) :
  plain_name n = true ->
  contains n (s +:+ to_string z +:+ rest) = contains n s || contains n rest.
Proof.
  intros Hn. destruct (to_string_numeric z) as (Hall & c & t & E & Hc).
  rewrite <- (contains_numeral_head n (to_string z) rest Hn Hall).
  revert Hall. rewrite E. intros Hall.
  change (String c t +:+ rest) with (String c (t +:+ rest)).
  now apply contains_before_numeral.
Qed.

Lemma count_mentions_lit (n s : string) (fs : list Fragment) :
  count_mentions n (Lit s :: fs) =
  ((if contains n s then 1 else 0) + count_mentions n fs)%nat.
Proof. unfold count_mentions. cbn. now destruct (contains n s). Qed.

Lemma count_mentions_ext `{helpers : Helpers} (n e : string)
  (fs : list Fragment) :
  count_mentions n (Ext e :: fs) = count_mentions n fs.
Proof. reflexivity. Qed.

Lemma count_mentions_flat_map_zero {A : Type} (n : string)
  (f : A -> list Fragment) (l : list A) :
  (forall a, count_mentions n (f a) = 0%nat) ->
  count_mentions n (flat_map f l) = 0%nat.
Proof.
  intros H. induction l as [|a l IH]; [reflexivity|].
  cbn [flat_map]. now rewrite count_mentions_app, H, IH.
Qed.

Lemma count_mentions_map_zero {A : Type} (n : string) (f : A -> Fragment)
  (l : list A) :
  (forall a, count_mentions n [f a] = 0%nat) ->
  count_mentions n (map f l) = 0%nat.
Proof.
  intros H. induction l as [|a l IH]; [reflexivity|].
  change (map f (a :: l)) with ([f a] ++ map f l).
  now rewrite count_mentions_app, H, IH.
Qed.

Ltac is_literal s :=
  lazymatch s with
  | EmptyString => idtac
  | String _ ?t => is_literal t
  end.

(** Two literals written one after the other are read as one. *)
Ltac merge_literals :=
  repeat match goal with
         | |- context [String ?c ?a +:+ (String ?c' ?b +:+ ?x)] =>
             is_literal a; is_literal b;
             let ab := eval vm_compute in (String c a +:+ String c' b) in
             change (String c a +:+ (String c' b +:+ x)) with (ab +:+ x)
         end.

Ltac quiet :=
  cbv beta zeta;
  repeat first
    [ rewrite count_mentions_app
    | rewrite count_mentions_flat_map_zero by (intros; quiet)
    | rewrite count_mentions_map_zero by (intros; quiet)
    | rewrite count_mentions_lit
    | rewrite count_mentions_ext ];
  cbv beta zeta iota delta [LF BACKSLASH_LF];
  rewrite ?append_assoc;
  merge_literals;
  rewrite ?contains_numeral by reflexivity;
  vm_compute; reflexivity.

Ltac each_parameter H :=
  destruct H as [<-|[<-|[<-|[]]]].

Section Parameters.

Context {helpers : Helpers}.

Lemma ConvMacros_quiet (n : string) (p : CalculationsPrecision)
  (block_size : int3) :
  In n conditional_parameters -> count_mentions n (ConvMacros p block_size) = 0%nat.
Proof.
  intros H. unfold ConvMacros, ConvMacro.
  each_parameter H; destruct p; quiet.
Qed.

Lemma TileOrigin_quiet (n : string) (block_size : int3) :
  In n conditional_parameters -> count_mentions n (TileOrigin block_size) = 0%nat.
Proof. intros H. unfold TileOrigin. each_parameter H; quiet. Qed.

Lemma SourceCoordinates_quiet (n : string) (op_def : OperationDef)
  (block_size : int3) (stride : int2) :
  In n conditional_parameters ->
  (n = "BATCH_SIZE" -> NeedStrideCorrection op_def stride = false) ->
  count_mentions n (SourceCoordinates op_def block_size stride) = 0%nat.
Proof.
  intros H Hb.
  unfold SourceCoordinates, SourceXCoordinate, SourceYCoordinate.
  each_parameter H;
    [rewrite Hb by reflexivity
    | destruct (NeedStrideCorrection op_def stride)..]; quiet.
Qed.

Lemma Accumulators_quiet (n : string) (block_size : int3) :
  In n conditional_parameters -> count_mentions n (Accumulators block_size) = 0%nat.
Proof. intros H. unfold Accumulators. each_parameter H; quiet. Qed.

Lemma WindowLoops_quiet (n : string) (block_size : int3)
  (is1x1 is_image_buffer : bool) :
  In n conditional_parameters ->
  (n <> "BATCH_SIZE" -> is1x1 = true) ->
  count_mentions n (WindowLoops block_size is1x1 is_image_buffer) = 0%nat.
Proof.
  intros H H1.
  unfold WindowLoops, ImageBufferAddresses, ImageBufferAddress.
  each_parameter H;
    [destruct is1x1 | rewrite H1 by discriminate..];
    destruct is_image_buffer; cbn [negb]; quiet.
Qed.

Lemma ReductionLoop_quiet (n : string) (block_size : int3)
  (is1x1 is_image_buffer : bool) (device : CLDevice)
  (src_tensor : TensorCodeGenerator) :
  In n conditional_parameters ->
  count_mentions n (ReductionLoop block_size is1x1 is_image_buffer device
                      src_tensor) = 0%nat.
Proof.
  intros H. unfold ReductionLoop, FilterReads.
  each_parameter H; destruct is1x1, is_image_buffer; cbn [negb]; quiet.
Qed.

Lemma WindowLoopsEnd_quiet (n : string) (is1x1 : bool) :
  In n conditional_parameters -> count_mentions n (WindowLoopsEnd is1x1) = 0%nat.
Proof. intros H. each_parameter H; destruct is1x1; reflexivity. Qed.

Lemma Epilogue_quiet (n : string) (block_size : int3)
  (is1x1 adreno4xx_optimization : bool) (dst_tensor : TensorCodeGenerator)
  (linked_operations : list ElementwiseOperation) :
  In n conditional_parameters ->
  count_mentions n
    (Epilogue block_size (dst_x is1x1 adreno4xx_optimization)
       (dst_y is1x1 adreno4xx_optimization) dst_tensor linked_operations)
    = 0%nat.
Proof.
  intros H.
  unfold Epilogue, EpilogueSlice, TileStore, BoundsCheck, dst_x, dst_y.
  each_parameter H; destruct (is1x1 && adreno4xx_optimization); quiet.
Qed.

Lemma KernelSignature_quiet (n : string) (op_def : OperationDef)
  (is1x1 : bool) (stride : int2)
  (src_tensor dst_tensor : TensorCodeGenerator)
  (linked_operations : list ElementwiseOperation) :
  In n conditional_parameters ->
  (n = "BATCH_SIZE" -> NeedStrideCorrection op_def stride = false) ->
  (n <> "BATCH_SIZE" -> is1x1 = true) ->
  count_mentions n (KernelSignature op_def is1x1 stride src_tensor dst_tensor
                      linked_operations) = 0%nat.
Proof.
  intros H Hb H1. unfold KernelSignature, SizeAndWindowParameters.
  each_parameter H;
    [rewrite Hb by reflexivity; destruct is1x1
    | rewrite H1 by discriminate;
      destruct (NeedStrideCorrection op_def stride)..];
    cbn [negb map app]; quiet.
Qed.

Lemma GenerateConvCode_fragments_quiet (n : string) (op_def : OperationDef)
  (block_size : int3) (is1x1 adreno4xx_optimization : bool) (stride : int2)
  (device : CLDevice) (linked_operations : list ElementwiseOperation) :
  In n conditional_parameters ->
  (n = "BATCH_SIZE" -> NeedStrideCorrection op_def stride = false) ->
  (n <> "BATCH_SIZE" -> is1x1 = true) ->
  count_mentions n
    (GenerateConvCode_fragments op_def block_size is1x1
       adreno4xx_optimization stride device linked_operations) = 0%nat.
Proof.
  intros H Hb H1. unfold GenerateConvCode_fragments. cbv zeta.
  rewrite !count_mentions_app, count_mentions_ext.
  rewrite ConvMacros_quiet, KernelSignature_quiet, TileOrigin_quiet,
    SourceCoordinates_quiet, Accumulators_quiet, WindowLoops_quiet,
    ReductionLoop_quiet, WindowLoopsEnd_quiet, Epilogue_quiet by assumption.
  each_parameter H; reflexivity.
Qed.

End Parameters.

(** X12.  The text the generator itself writes reads a conditional
    parameter only when the entry point declares it: without stride
    correction no piece mentions BATCH_SIZE, and for a 1x1 window no piece
    mentions kernel_size or dilation, whatever the block, the storage, the
    precision and the vendor flag. *)
Theorem undeclared_parameters_never_read `{helpers : Helpers}
  (op_def : OperationDef) (block_size : int3)
  (is1x1 adreno4xx_optimization : bool) (stride : int2) (device : CLDevice)
  (linked_operations : list ElementwiseOperation) :
  let text := GenerateConvCode_fragments op_def block_size is1x1
                adreno4xx_optimization stride device linked_operations in
  (NeedStrideCorrection op_def stride = false ->
   count_mentions "BATCH_SIZE" text = 0%nat) /\
  (is1x1 = true ->
   count_mentions "kernel_size" text = 0%nat /\
   count_mentions "dilation" text = 0%nat).
Proof.
  intros text. split.
  - intros Hb. apply GenerateConvCode_fragments_quiet.
    + left. reflexivity.
    + intros _. exact Hb.
    + intros H. now contradict H.
  - intros H1. split; apply GenerateConvCode_fragments_quiet;
      try (intros; first [discriminate | exact H1]).
    + right. left. reflexivity.
    + right. right. left. reflexivity.
Qed.

Lemma undeclared_parameters_never_read_sample :
  count_mentions "BATCH_SIZE"
    (GenerateConvCode_fragments (helpers := Sample.helpers)
       (Sample.definition F16 TEXTURE_ARRAY false) (Int3 4 4 2) true true
       (Int2 1 1) Sample.Adreno4xx Sample.shift_by_7) = 0%nat /\
  count_mentions "kernel_size"
    (GenerateConvCode_fragments (helpers := Sample.helpers)
       (Sample.definition F16 TEXTURE_ARRAY false) (Int3 4 4 2) true true
       (Int2 1 1) Sample.Adreno4xx Sample.shift_by_7) = 0%nat /\
  count_mentions "dilation"
    (GenerateConvCode_fragments (helpers := Sample.helpers)
       (Sample.definition F16 TEXTURE_ARRAY false) (Int3 4 4 2) true true
       (Int2 1 1) Sample.Adreno4xx Sample.shift_by_7) = 0%nat.
Proof.
  destruct (undeclared_parameters_never_read (helpers := Sample.helpers)
              (Sample.definition F16 TEXTURE_ARRAY false) (Int3 4 4 2) true
              true (Int2 1 1) Sample.Adreno4xx Sample.shift_by_7)
    as [Hb H1].
  split; [apply Hb; reflexivity | apply H1; reflexivity].
Defined.
